(** * OpenSpec TUI: document sessions, persistence and the change catalog

    A shallow embedding of [src/openspec_tui/__init__.py].

    Modelling conventions.
    - Python text is a [string]: the sequence of bytes of its UTF-8
      encoding ([utf8] tells the strings that are such a sequence).
      Concatenation, [replace] of one ASCII character by another and
      [str.format] act on it exactly as on the text; [title] knows the
      ASCII letters only, and is exact on ASCII text. Files are read and
      written in UTF-8.
    - A Python [dict] is an association list in insertion order, its keys
      pairwise distinct; the values of the change metadata are text or
      booleans.
    - The filesystem is a tree rooted at the working directory; the entries
      of a directory are kept in the order in which [iterdir] yields them.
      The tree has no permissions, links, quotas or limits on names: the
      errors it raises are those of a file where a directory is needed, a
      directory where a file is needed, and a missing parent.
    - A handler is a computation over the application state (screen stack,
      filesystem, emitted notifications) that returns or raises. A handler
      of a screen takes that screen ([self]) as an argument; the stack
      holds the screens for pushing and popping.
    - Where the model says nothing about an input (a [..] in a path, JSON
      beyond the metadata schema, a format field that is not a plain name),
      the function answers [Unmodelled] instead of guessing. *)

From stdpp Require Import base option list strings gmap pretty.
From Stdlib Require Import Ascii NArith.

Local Open Scope string_scope.
Local Open Scope list_scope.

(** ** Exceptions and fallible computations *)

(** The exceptions of Python that the code can meet; [Unmodelled] is none
    of them: it marks an input outside the model. *)
Inductive exn :=
| KeyError (key : string)
| IndexError
| ValueError
| TypeError
| AttributeError
| JSONDecodeError
| FileNotFoundError
| FileExistsError
| NotADirectoryError
| IsADirectoryError
| NoMatches
| NoActiveWorker
| Unmodelled.

(** The subclasses of [OSError] among them. *)
Definition is_OSError (e : exn) : bool :=
  match e with
  | FileNotFoundError | FileExistsError
  | NotADirectoryError | IsADirectoryError => true
  | _ => false
  end.

Inductive result (A : Type) :=
| Ok (a : A)
| Err (e : exn).
Arguments Ok {A} a.
Arguments Err {A} e.

#[global] Instance result_ret : MRet result := fun _ a => Ok a.
#[global] Instance result_bind : MBind result := fun _ _ f r =>
  match r with
  | Ok a => f a
  | Err e => Err e
  end.
#[global] Instance result_fmap : FMap result := fun _ _ f r =>
  match r with
  | Ok a => Ok (f a)
  | Err e => Err e
  end.

(** ** Python values and dictionaries *)

Inductive pyval :=
| PStr (s : string)
| PBool (b : bool).

(** [str(v)], which is also [format(v, "")]. *)
Definition py_str (v : pyval) : string :=
  match v with
  | PStr s => s
  | PBool true => "True"
  | PBool false => "False"
  end.

(** Truth value of [v] in a condition. *)
Definition truthy (v : pyval) : bool :=
  match v with
  | PStr s => negb (String.eqb s "")
  | PBool b => b
  end.

(** Association lists in insertion order: Python dictionaries and the
    entries of a directory. *)
Section alist.
Context {A : Type}.

Fixpoint alist_get (k : string) (l : list (string * A)) : option A :=
  match l with
  | [] => None
  | (k', v) :: l' => if String.eqb k k' then Some v else alist_get k l'
  end.

(** An existing key keeps its place, a new one goes last. *)
Fixpoint alist_set (k : string) (v : A) (l : list (string * A)) : list (string * A) :=
  match l with
  | [] => [(k, v)]
  | (k', v') :: l' =>
      if String.eqb k k' then (k, v) :: l' else (k', v') :: alist_set k v l'
  end.
End alist.

Definition dict := list (string * pyval).

(** [d.get(k)] *)
Definition dict_get (k : string) (d : dict) : option pyval := alist_get k d.

(** [d.get(k, default)] *)
Definition dict_get_default (k : string) (default : pyval) (d : dict) : pyval :=
  match dict_get k d with
  | Some v => v
  | None => default
  end.

(** [d[k]] *)
Definition dict_item (k : string) (d : dict) : result pyval :=
  match dict_get k d with
  | Some v => Ok v
  | None => Err (KeyError k)
  end.

(** [d[k] = v] *)
Definition dict_set (k : string) (v : pyval) (d : dict) : dict := alist_set k v d.

Definition keys (d : dict) : list string := d.*1.

(** ** Text operations *)

Definition LF : ascii := ascii_of_nat 10.
Definition dq : string := String (ascii_of_nat 34) "".

Definition unlines (ls : list string) : string :=
  String.concat "" (map (fun l => l +:+ String LF "") ls).

Definition is_lower (c : ascii) : bool :=
  (97 <=? nat_of_ascii c)%nat && (nat_of_ascii c <=? 122)%nat.
Definition is_upper (c : ascii) : bool :=
  (65 <=? nat_of_ascii c)%nat && (nat_of_ascii c <=? 90)%nat.
Definition to_upper (c : ascii) : ascii :=
  if is_lower c then ascii_of_nat (nat_of_ascii c - 32) else c.
Definition to_lower (c : ascii) : ascii :=
  if is_upper c then ascii_of_nat (nat_of_ascii c + 32) else c.

(** [s.replace(old, new)] for one-character [old] and [new]. *)
Fixpoint replace (old new : ascii) (s : string) : string :=
  match s with
  | "" => ""
  | String c r => String (if Ascii.eqb c old then new else c) (replace old new r)
  end.

(** [s.title()] on ASCII text: a letter is upper-cased after a character
    that is no letter and lower-cased after a letter. Of the letters above
    127 the function knows nothing (it leaves their bytes alone, where
    Python cases them): what is stated of a title is stated of ASCII
    text. *)
Fixpoint title_from (previous_is_cased : bool) (s : string) : string :=
  match s with
  | "" => ""
  | String c r =>
      if is_lower c then
        String (if previous_is_cased then c else to_upper c) (title_from true r)
      else if is_upper c then
        String (if previous_is_cased then to_lower c else c) (title_from true r)
      else String c (title_from false r)
  end.
Definition title (s : string) : string := title_from false s.

(** ** Characters

    A text is well formed when its bytes are the UTF-8 encoding of code
    points, none of them a surrogate; every text of Python that can be
    written to a file is. *)

Definition code (c : ascii) : N := N_of_ascii c.
Definition chr (n : N) : ascii := ascii_of_N n.

Definition is_ascii (s : string) : bool :=
  forallb (fun c => (code c <? 128)%N) (String.list_ascii_of_string s).

(** A byte that continues a character, and what it carries. *)
Definition is_cont (c : ascii) : bool := (128 <=? code c)%N && (code c <? 192)%N.
Definition tail6 (c : ascii) : N := (code c - 128)%N.

(** The code point of a character of two, three and four bytes. *)
Definition point2 (c c1 : ascii) : N := ((code c - 192) * 64 + tail6 c1)%N.
Definition point3 (c c1 c2 : ascii) : N :=
  ((code c - 224) * 4096 + tail6 c1 * 64 + tail6 c2)%N.
Definition point4 (c c1 c2 c3 : ascii) : N :=
  ((code c - 240) * 262144 + tail6 c1 * 4096 + tail6 c2 * 64 + tail6 c3)%N.

Definition is_surrogate (cp : N) : bool := (55296 <=? cp)%N && (cp <? 57344)%N.

Fixpoint utf8 (s : string) : bool :=
  match s with
  | "" => true
  | String c r =>
      if (code c <? 128)%N then utf8 r
      else if (code c <? 224)%N then
        match r with
        | String c1 r1 => (194 <=? code c)%N && is_cont c1 && utf8 r1
        | _ => false
        end
      else if (code c <? 240)%N then
        match r with
        | String c1 (String c2 r2) =>
            is_cont c1 && is_cont c2 && (2048 <=? point3 c c1 c2)%N
            && negb (is_surrogate (point3 c c1 c2)) && utf8 r2
        | _ => false
        end
      else
        match r with
        | String c1 (String c2 (String c3 r3)) =>
            is_cont c1 && is_cont c2 && is_cont c3
            && (65536 <=? point4 c c1 c2 c3)%N && (point4 c c1 c2 c3 <? 1114112)%N
            && utf8 r3
        | _ => false
        end
  end.

(** The bytes of the code point [cp]. *)
Definition encode (cp : N) : string :=
  if (cp <? 128)%N then String (chr cp) ""
  else if (cp <? 2048)%N then
    String (chr (192 + cp / 64)) (String (chr (128 + cp mod 64)) "")
  else if (cp <? 65536)%N then
    String (chr (224 + cp / 4096))
      (String (chr (128 + cp / 64 mod 64)) (String (chr (128 + cp mod 64)) ""))
  else
    String (chr (240 + cp / 262144))
      (String (chr (128 + cp / 4096 mod 64))
         (String (chr (128 + cp / 64 mod 64)) (String (chr (128 + cp mod 64)) ""))).

Definition utf8_value (v : pyval) : bool :=
  match v with
  | PStr s => utf8 s
  | PBool _ => true
  end.

Definition utf8_dict (d : dict) : bool :=
  forallb (fun kv => utf8 kv.1 && utf8_value kv.2) d.

(** ** [str.format]

    The template is cut into literal characters and replacement fields from
    left to right; a field is looked up when it is reached, so the first
    failure in reading order is the one raised. Fields are plain names, as
    in the four templates: a conversion, a format specification, an
    attribute or an index inside a field is outside the model. *)

Inductive piece :=
| Literal (c : ascii)
| Field (name : string)
| Stop (e : exn).

Definition field_special (c : ascii) : bool :=
  existsb (Ascii.eqb c) (String.list_ascii_of_string "{!:.[").

Fixpoint markup (field : option string) (s : string) : list piece :=
  match field, s with
  | None, "" => []
  | None, String "{" (String "{" r) => Literal "{" :: markup None r
  | None, String "{" r => markup (Some "") r
  | None, String "}" (String "}" r) => Literal "}" :: markup None r
  | None, String "}" _ => [Stop ValueError]
  | None, String c r => Literal c :: markup None r
  | Some f, "" => [Stop ValueError]
  | Some f, String "}" r => Field f :: markup None r
  | Some f, String c r =>
      if field_special c then [Stop Unmodelled]
      else markup (Some (f +:+ String c "")) r
  end.

Definition is_digit (c : ascii) : bool :=
  (48 <=? nat_of_ascii c)%nat && (nat_of_ascii c <=? 57)%nat.

(** The index a numeric field name stands for. The name is read digit by
    digit and given up with [ValueError] once the number no longer fits
    the index type, [2^63 - 1] at most on a 64-bit interpreter and
    [2^31 - 1] on a 32-bit one; between the two the answer depends on the
    interpreter and the model gives none. *)
Fixpoint get_integer (accumulator : N) (digits : list ascii) : result N :=
  match digits with
  | [] => Ok accumulator
  | d :: digits' =>
      let n := (accumulator * 10 + (code d - 48))%N in
      if (2 ^ 63 <=? n)%N then Err ValueError
      else if (2 ^ 31 <=? n)%N then Err Unmodelled
      else get_integer n digits'
  end.

(** The value of field [f]: an empty or numeric name is positional, and
    no positional argument is ever passed. A name with a character above
    127 is outside the model (the digits of other scripts count as digits
    too). *)
Definition get_value (f : string) (kwargs : dict) : result pyval :=
  if forallb is_digit (String.list_ascii_of_string f) then
    _ ← get_integer 0 (String.list_ascii_of_string f); Err IndexError
  else if is_ascii f then dict_item f kwargs
  else Err Unmodelled.

Fixpoint vformat (ps : list piece) (kwargs : dict) : result string :=
  match ps with
  | [] => Ok ""
  | Literal c :: ps' => String c <$> vformat ps' kwargs
  | Field f :: ps' =>
      v ← get_value f kwargs;
      rest ← vformat ps' kwargs;
      Ok (py_str v +:+ rest)
  | Stop e :: _ => Err e
  end.

Definition format (template : string) (kwargs : dict) : result string :=
  vformat (markup None template) kwargs.

(** ** Templates *)

Definition PROPOSAL_TEMPLATE : string :=
  unlines [
    "# Proposal: {name}";
    "";
    "## Overview";
    "";
    "[1-2 paragraph summary of what this change does and why it matters]";
    "";
    "## Problem Statement";
    "";
    "[Describe the problem or need this change addresses]";
    "";
    "**Current State:**";
    "[What exists today and its limitations]";
    "";
    "**Pain Points:**";
    "- [Pain point 1]";
    "- [Pain point 2]";
    "- [Pain point 3]";
    "";
    "## Proposed Solution";
    "";
    "[High-level description of the solution]";
    "";
    "**Key Changes:**";
    "- [Major change 1]";
    "- [Major change 2]";
    "- [Major change 3]";
    "";
    "## Scope";
    "";
    "**In Scope:**";
    "- [What this change includes]";
    "";
    "**Out of Scope:**";
    "- [What this deliberately excludes]";
    "";
    "## Success Criteria";
    "";
    "**This change is successful when:**";
    "- [ ] [Measurable criterion 1]";
    "- [ ] [Measurable criterion 2]";
    "";
    "**Metrics to track:**";
    "- [Metric 1]: Target [value]";
    "";
    "## Timeline";
    "";
    "**Estimated effort:** [X days/weeks]";
    "";
    "## Risks & Mitigation";
    "";
    "| Risk | Impact | Mitigation |";
    "|------|--------|------------|";
    "| [Risk 1] | High/Med/Low | [How to address] |"
  ].

Definition TASKS_TEMPLATE : string :=
  unlines [
    "# Implementation Tasks: {name}";
    "";
    "## Overview";
    "";
    "[Brief summary of the implementation approach]";
    "";
    "---";
    "";
    "## 1. [Phase/Component Name]";
    "";
    "**Goal:** [What this phase accomplishes]";
    "";
    "- [ ] **1.1** [Specific task]";
    "  - Files: `path/to/file.ts`";
    "  - Details: [Any specific implementation notes]";
    "  - Acceptance: [How to verify completion]";
    "";
    "---";
    "";
    "## 2. Testing & Validation";
    "";
    "**Goal:** Ensure all requirements are met";
    "";
    "- [ ] **2.1** Write unit tests";
    "  - Coverage: [Specific scenarios]";
    "  - Files: `path/to/test.spec.ts`"
  ].

Definition SPEC_TEMPLATE : string :=
  unlines [
    "# {feature_area} Specification Delta";
    "";
    "> **Note:** This is a spec delta for the `{name}` change.";
    "> It will be merged into `openspec/specs/{feature_area}/spec.md` after approval.";
    "";
    "---";
    "";
    "## ADDED Requirements";
    "";
    "### Requirement: [Requirement Name]";
    "";
    "The system SHALL [action or behavior].";
    "";
    "#### Scenario: [Scenario Name]";
    "";
    "- **GIVEN** [precondition]";
    "- **WHEN** [action or trigger]";
    "- **THEN** [expected outcome]";
    "";
    "**Acceptance Criteria:**";
    "- [ ] [Testable criterion 1]";
    "";
    "**Priority:** P0 / P1 / P2";
    "";
    "---";
    "";
    "## MODIFIED Requirements";
    "";
    "[Leave empty if no modifications]";
    "";
    "---";
    "";
    "## REMOVED Requirements";
    "";
    "[Leave empty if no removals]"
  ].

Definition DESIGN_TEMPLATE : string :=
  unlines [
    "# Design Document: {name}";
    "";
    "## Technical Overview";
    "";
    "[High-level technical summary of the solution]";
    "";
    "---";
    "";
    "## Architecture";
    "";
    "### System Architecture";
    "";
    "[Diagram or description of how components interact]";
    "";
    "### Components";
    "";
    "**Component 1: [Name]**";
    "- **Purpose:** [What it does]";
    "- **Responsibilities:** [Key functions]";
    "";
    "---";
    "";
    "## Data Model";
    "";
    "### Database Schema Changes";
    "";
    "[Describe schema changes]";
    "";
    "---";
    "";
    "## API Design";
    "";
    "### New Endpoints";
    "";
    "**POST /api/v1/[resource]**";
    "";
    "Request:";
    "```json";
    "{{";
    ("  " +:+ dq +:+ "field1" +:+ dq +:+ ": " +:+ dq +:+ "string" +:+ dq +:+ "");
    "}}";
    "```";
    "";
    "---";
    "";
    "## Security Considerations";
    "";
    "[Security requirements and measures]";
    "";
    "---";
    "";
    "## Performance Considerations";
    "";
    "**Expected Load:**";
    "- Concurrent users: [Number]";
    "- Requests per second: [Number]"
  ].


(** ** Paths and the filesystem *)

Definition path := list string.

(** The components of [s] between slashes. *)
Fixpoint split_slash (cur : string) (s : string) : list string :=
  match s with
  | "" => [cur]
  | String c r =>
      if Ascii.eqb c "/" then cur :: split_slash "" r
      else split_slash (cur +:+ String c "") r
  end.

Definition plain_component (x : string) : bool :=
  negb (String.eqb x "") && negb (String.eqb x ".").

Definition has_nul (x : string) : bool :=
  existsb (Ascii.eqb (ascii_of_nat 0)) (String.list_ascii_of_string x).

(** [Path(s)] for a relative [s]: empty and [.] components vanish. The tree
    below has no parent links, so a [..] component is outside the model, and
    so is a name with a null character, which no system call accepts. *)
Definition Path (s : string) : result path :=
  let p := filter (fun x => plain_component x = true) (split_slash "" s) in
  if existsb (fun x => String.eqb ".." x || has_nul x) p
  then Err Unmodelled else Ok p.

(** [p / s]: an absolute [s] would replace [p], and leave the tree. *)
Definition joinpath (p : path) (s : string) : result path :=
  match s with
  | String "/" _ => Err Unmodelled
  | _ => q ← Path s; Ok (p ++ q)
  end.

(** [str(p)] *)
Definition path_str (p : path) : string :=
  match p with
  | [] => "."
  | _ => String.concat "/" p
  end.

#[local] Set Warnings "-register-all".
Inductive node :=
| File (text : string)
| Dir (entries : list (string * node)).

(** The node at [p], with the error of the system call that fails to
    reach it. *)
Fixpoint walk (p : path) (n : node) : result node :=
  match p, n with
  | [], _ => Ok n
  | _ :: _, File _ => Err NotADirectoryError
  | x :: p', Dir es =>
      match alist_get x es with
      | Some c => walk p' c
      | None => Err FileNotFoundError
      end
  end.

(** [p.exists()] *)
Definition exists_ (p : path) (fs : node) : bool :=
  match walk p fs with
  | Ok _ => true
  | Err _ => false
  end.

(** [p.is_dir()] *)
Definition is_dir (p : path) (fs : node) : bool :=
  match walk p fs with
  | Ok (Dir _) => true
  | _ => false
  end.

(** [p.iterdir()], fully listed: the children of [p] in directory order. *)
Definition iterdir (p : path) (fs : node) : result (list path) :=
  n ← walk p fs;
  match n with
  | Dir es => Ok (map (fun x => p ++ [x]) es.*1)
  | File _ => Err NotADirectoryError
  end.

(** [open(p).read()] *)
Definition read_text (p : path) (fs : node) : result string :=
  n ← walk p fs;
  match n with
  | File text => Ok text
  | Dir _ => Err IsADirectoryError
  end.

(** [p.mkdir(parents=True, exist_ok=True)] *)
Fixpoint mkdir (p : path) (n : node) : result node :=
  match p, n with
  | [], Dir _ => Ok n
  | [], File _ => Err FileExistsError
  | _ :: _, File _ => Err NotADirectoryError
  | x :: p', Dir es =>
      c ← mkdir p' (default (Dir []) (alist_get x es));
      Ok (Dir (alist_set x c es))
  end.

(** [open(p, "w")] followed by one write of [text]. *)
Fixpoint write_text (p : path) (text : string) (n : node) : result node :=
  match p, n with
  | [], File _ => Ok (File text)
  | [], Dir _ => Err IsADirectoryError
  | _ :: _, File _ => Err NotADirectoryError
  | x :: p', Dir es =>
      match alist_get x es with
      | Some c => c' ← write_text p' text c; Ok (Dir (alist_set x c' es))
      | None =>
          match p' with
          | [] => Ok (Dir (es ++ [(x, File text)]))
          | _ :: _ => Err FileNotFoundError
          end
      end
  end.

(** ** The JSON codec, on change metadata

    [json.dump(d, f, indent=2)] and [json.load(f)] for objects whose values
    are text or booleans. As [ensure_ascii] is left on, the writer emits
    ASCII only: a character above 127 goes out as the [\u] escape of its
    code point, or as the two escapes of its surrogate pair. The reader
    answers [Unmodelled] on JSON outside this fragment: numbers, [NaN],
    [Infinity], [null], arrays, nested objects, a document that is not an
    object, a surrogate without its partner, and any input with a byte
    above 127 (a character that [json.load] takes as it is, or bytes
    that are no text at all). *)
Module Json.

Definition BS : ascii := ascii_of_nat 92.
Definition DQ : ascii := ascii_of_nat 34.

Definition hex_digit (n : N) : ascii :=
  nth (N.to_nat n) (String.list_ascii_of_string "0123456789abcdef") "0"%char.

(** The two-character escapes: the letter that follows the backslash. *)
Definition short_escape (c : ascii) : option ascii :=
  let n := code c in
  if (n =? 34)%N then Some DQ
  else if (n =? 92)%N then Some BS
  else if (n =? 8)%N then Some "b"%char
  else if (n =? 12)%N then Some "f"%char
  else if (n =? 10)%N then Some "n"%char
  else if (n =? 13)%N then Some "r"%char
  else if (n =? 9)%N then Some "t"%char
  else None.

(** The four hexadecimal digits of [n], and the escape made of them. *)
Definition hex4 (n : N) : string :=
  String (hex_digit (n / 4096))
    (String (hex_digit (n / 256 mod 16))
       (String (hex_digit (n / 16 mod 16))
          (String (hex_digit (n mod 16)) ""))).

Definition u_escape (n : N) : string := String BS (String "u" (hex4 n)).

(** A character below 128. *)
Definition escape_char (c : ascii) : string :=
  match short_escape c with
  | Some e => String BS (String e "")
  | None =>
      if (code c <? 32)%N || (code c =? 127)%N then u_escape (code c)
      else String c ""
  end.

(** The code point [cp] of a character above 127. *)
Definition escape_point (cp : N) : string :=
  if (cp <? 65536)%N then u_escape cp
  else u_escape (55296 + (cp - 65536) / 1024)
       +:+ u_escape (56320 + (cp - 65536) mod 1024).

(** The text is read character by character, each with the bytes that
    continue it; bytes that are no UTF-8 stay as they are (no text has
    them). *)
Fixpoint escape (s : string) : string :=
  match s with
  | "" => ""
  | String c r =>
      if (code c <? 128)%N then escape_char c +:+ escape r
      else if (code c <? 224)%N then
        match r with
        | String c1 r1 => escape_point (point2 c c1) +:+ escape r1
        | _ => String c (escape r)
        end
      else if (code c <? 240)%N then
        match r with
        | String c1 (String c2 r2) => escape_point (point3 c c1 c2) +:+ escape r2
        | _ => String c (escape r)
        end
      else
        match r with
        | String c1 (String c2 (String c3 r3)) =>
            escape_point (point4 c c1 c2 c3) +:+ escape r3
        | _ => String c (escape r)
        end
  end.

Definition dump_str (s : string) : string :=
  String DQ (escape s +:+ String DQ "").

Definition dump_value (v : pyval) : string :=
  match v with
  | PStr s => dump_str s
  | PBool true => "true"
  | PBool false => "false"
  end.

Definition dump_item (kv : string * pyval) : string :=
  dump_str kv.1 +:+ ": " +:+ dump_value kv.2.

Definition newline_indent : string := String LF "  ".

Fixpoint dump_items (kv : string * pyval) (d : dict) : string :=
  match d with
  | [] => dump_item kv +:+ String LF ""
  | kv' :: d' => dump_item kv +:+ "," +:+ newline_indent +:+ dump_items kv' d'
  end.

(** [json.dumps(d, indent=2)] *)
Definition dumps (d : dict) : string :=
  match d with
  | [] => "{}"
  | kv :: d' => "{" +:+ newline_indent +:+ dump_items kv d' +:+ "}"
  end.

Inductive token :=
| TLBrace | TRBrace | TColon | TComma
| TString (s : string)
| TBool (b : bool).

(** Where the scanner stands: between tokens, inside a string, after a
    backslash, inside the four digits of a [\u] escape (the second one of
    a pair when [high] is the surrogate that came first), after a high
    surrogate where the backslash and the [u] of its partner are due, or
    inside [true] or [false]. *)
Inductive mode :=
| Top
| Str (acc : string)
| Esc (acc : string)
| Uni (acc : string) (high : option N) (more : nat) (value : N)
| Low1 (acc : string) (high : N)
| Low2 (acc : string) (high : N)
| Word (expect : string) (b : bool).

Definition is_ws (c : ascii) : bool :=
  let n := code c in
  (n =? 32)%N || (n =? 9)%N || (n =? 10)%N || (n =? 13)%N.

Definition hex_value (c : ascii) : option N :=
  let n := code c in
  if (48 <=? n)%N && (n <=? 57)%N then Some (n - 48)%N
  else if (97 <=? n)%N && (n <=? 102)%N then Some (n - 87)%N
  else if (65 <=? n)%N && (n <=? 70)%N then Some (n - 55)%N
  else None.

(** The character a two-character escape stands for. *)
Definition unescape (e : ascii) : option ascii :=
  let n := code e in
  if (n =? 34)%N then Some DQ
  else if (n =? 92)%N then Some BS
  else if (n =? 47)%N then Some "/"%char
  else if (n =? 98)%N then Some (ascii_of_nat 8)
  else if (n =? 102)%N then Some (ascii_of_nat 12)
  else if (n =? 110)%N then Some (ascii_of_nat 10)
  else if (n =? 114)%N then Some (ascii_of_nat 13)
  else if (n =? 116)%N then Some (ascii_of_nat 9)
  else None.

Definition snoc (acc : string) (c : ascii) : string := acc +:+ String c "".

Definition is_high (v : N) : bool := (55296 <=? v)%N && (v <? 56320)%N.
Definition is_low (v : N) : bool := (56320 <=? v)%N && (v <? 57344)%N.

(** The mode after the four digits gave [v]. *)
Definition finish (acc : string) (high : option N) (v : N) : result mode :=
  match high with
  | None =>
      if is_high v then Ok (Low1 acc v)
      else if is_low v then Err Unmodelled
      else Ok (Str (acc +:+ encode v))
  | Some h =>
      if is_low v
      then Ok (Str (acc +:+ encode (65536 + (h - 55296) * 1024 + (v - 56320))))
      else Err Unmodelled
  end.

(** What starts a JSON value the model does not read: a number, an
    array, [null], [NaN], [Infinity]. *)
Definition starts_other_value (c : ascii) : bool :=
  let n := code c in
  ((48 <=? n)%N && (n <=? 57)%N) || (n =? 45)%N
  || (n =? 91)%N || (n =? 93)%N || (n =? 110)%N || (n =? 78)%N || (n =? 73)%N.

Definition scan_top (c : ascii) : result (option token * mode) :=
  let n := code c in
  if is_ws c then Ok (None, Top)
  else if (n =? 123)%N then Ok (Some TLBrace, Top)
  else if (n =? 125)%N then Ok (Some TRBrace, Top)
  else if (n =? 58)%N then Ok (Some TColon, Top)
  else if (n =? 44)%N then Ok (Some TComma, Top)
  else if (n =? 34)%N then Ok (None, Str "")
  else if (n =? 116)%N then Ok (None, Word "rue" true)
  else if (n =? 102)%N then Ok (None, Word "alse" false)
  else if starts_other_value c then Err Unmodelled
  else Err JSONDecodeError.

(** One character of input: the token it completes, if any, and the
    mode for the next character. *)
Definition scan (m : mode) (c : ascii) : result (option token * mode) :=
  if (128 <=? code c)%N then Err Unmodelled else
  match m with
  | Top => scan_top c
  | Str acc =>
      if Ascii.eqb c DQ then Ok (Some (TString acc), Top)
      else if Ascii.eqb c BS then Ok (None, Esc acc)
      else if (code c <? 32)%N then Err JSONDecodeError
      else Ok (None, Str (snoc acc c))
  | Esc acc =>
      match unescape c with
      | Some c' => Ok (None, Str (snoc acc c'))
      | None =>
          if Ascii.eqb c "u" then Ok (None, Uni acc None 3 0) else Err JSONDecodeError
      end
  | Uni acc high more value =>
      match hex_value c with
      | None => Err JSONDecodeError
      | Some h =>
          let value' := (16 * value + h)%N in
          match more with
          | S more' => Ok (None, Uni acc high more' value')
          | O => m' ← finish acc high value'; Ok (None, m')
          end
      end
  | Low1 acc high =>
      if Ascii.eqb c BS then Ok (None, Low2 acc high) else Err Unmodelled
  | Low2 acc high =>
      if Ascii.eqb c "u" then Ok (None, Uni acc (Some high) 3 0) else Err Unmodelled
  | Word expect b =>
      match expect with
      | String e "" => if Ascii.eqb c e then Ok (Some (TBool b), Top) else Err JSONDecodeError
      | String e rest => if Ascii.eqb c e then Ok (None, Word rest b) else Err JSONDecodeError
      | "" => Err JSONDecodeError
      end
  end.

Fixpoint lex (m : mode) (s : string) : result (list token) :=
  match s with
  | "" => match m with Top => Ok [] | _ => Err JSONDecodeError end
  | String c r =>
      match scan m c with
      | Ok (Some t, m') => cons t <$> lex m' r
      | Ok (None, m') => lex m' r
      | Err e => Err e
      end
  end.

Definition value (t : token) : result pyval :=
  match t with
  | TString s => Ok (PStr s)
  | TBool b => Ok (PBool b)
  | TLBrace => Err Unmodelled
  | _ => Err JSONDecodeError
  end.

(** The members after an opening brace or a comma, added to [d]; a
    repeated key overwrites. *)
Fixpoint members (ts : list token) (d : dict) : result dict :=
  match ts with
  | TString k :: TColon :: t :: ts' =>
      v ← value t;
      match ts' with
      | [TRBrace] => Ok (dict_set k v d)
      | TComma :: ts'' => members ts'' (dict_set k v d)
      | _ => Err JSONDecodeError
      end
  | _ => Err JSONDecodeError
  end.

Definition object (ts : list token) : result dict :=
  match ts with
  | [TLBrace; TRBrace] => Ok []
  | TLBrace :: ts' => members ts' []
  | [TString _] | [TBool _] => Err Unmodelled
  | _ => Err JSONDecodeError
  end.

(** The tokens of a written value and of the written items. *)
Definition value_token (v : pyval) : token :=
  match v with
  | PStr s => TString s
  | PBool b => TBool b
  end.

Fixpoint items_tokens (kv : string * pyval) (d : dict) : list token :=
  TString kv.1 :: TColon :: value_token kv.2 ::
    match d with
    | [] => [TRBrace]
    | kv' :: d' => TComma :: items_tokens kv' d'
    end.

(** [json.loads(s)] *)
Definition loads (s : string) : result dict :=
  ts ← lex Top s; object ts.

End Json.

(** ** Screens and the application state *)

Inductive severity := information | warning | error.

Record notification := Notification {
  message : string;
  level : severity;
}.

(** The values held by the controls of the creation modal. *)
Record NewChangeScreen := {
  change_name : string;
  feature_area : string;
  author : string;
  include_design : bool;
}.

(** [files] is filled by [_init_files]; [editors] maps the id of each
    mounted [TextArea] to its text. *)
Record EditorScreen := {
  change_data : dict;
  current_file : string;
  files : gmap string string;
  editors : gmap string string;
}.

(** The text of the [#recent_changes] label. *)
Record MainScreen := {
  recent_changes : string;
}.

Inductive screen :=
| Main (s : MainScreen)
| NewChange (s : NewChangeScreen)
| Editor (s : EditorScreen).

Record app := App {
  stack : list screen;
  fs : node;
  notes : list notification;
}.

(** A handler runs on the application state and returns or raises; the
    state it leaves behind is kept in both cases. *)
Definition M (A : Type) : Type := app -> result A * app.

Definition ret {A} (x : A) : M A := fun a => (Ok x, a).
Definition raise {A} (e : exn) : M A := fun a => (Err e, a).
Definition bind {A B} (m : M A) (k : A -> M B) : M B := fun a =>
  match m a with
  | (Ok x, a') => k x a'
  | (Err e, a') => (Err e, a')
  end.
Definition lift {A} (r : result A) : M A := fun a => (r, a).

Notation "x <- m ;; k" := (bind m (fun x => k))
  (at level 100, m at next level, right associativity).
Notation "m ;; k" := (bind m (fun _ => k))
  (at level 100, right associativity).

(** Observations of the filesystem. *)
Definition ask {A} (f : node -> A) : M A := fun a => (Ok (f (fs a)), a).
Definition try {A} (f : node -> result A) : M A := fun a => (f (fs a), a).
(** Changes of the filesystem. *)
Definition update (f : node -> result node) : M unit := fun a =>
  match f (fs a) with
  | Ok fs' => (Ok tt, App (stack a) fs' (notes a))
  | Err e => (Err e, a)
  end.

(** [self.notify(message, severity=level)] *)
Definition notify (message : string) (level : severity) : M unit := fun a =>
  (Ok tt, App (stack a) (fs a) (notes a ++ [Notification message level])).

(** Iteration of a loop body over [xs], carrying the local [acc]. *)
Fixpoint for_each {A B} (xs : list A) (acc : B) (body : B -> A -> M B) : M B :=
  match xs with
  | [] => ret acc
  | x :: xs' => acc' <- body acc x;; for_each xs' acc' body
  end.

(** ** EditorScreen *)

(** [name.replace("-", " ").title()] *)
Definition display_name (name : pyval) : result string :=
  match name with
  | PStr s => Ok (title (replace "-" " " s))
  | PBool _ => Err AttributeError
  end.

Definition _init_files (change_data : dict) : result (gmap string string) :=
  name ← dict_item "name" change_data;
  feature_area ← dict_item "feature_area" change_data;
  shown ← display_name name;
  proposal ← format PROPOSAL_TEMPLATE [("name", PStr shown)];
  shown ← display_name name;
  tasks ← format TASKS_TEMPLATE [("name", PStr shown)];
  spec ← format SPEC_TEMPLATE [("name", name); ("feature_area", feature_area)];
  let files : gmap string string :=
    <["spec" := spec]> (<["tasks" := tasks]> (<["proposal" := proposal]> ∅)) in
  if truthy (dict_get_default "include_design" (PBool false) change_data) then
    shown ← display_name name;
    design ← format DESIGN_TEMPLATE [("name", PStr shown)];
    Ok (<["design" := design]> files)
  else Ok files.

(** [EditorScreen(change_data)] *)
Definition EditorScreen_init (change_data : dict) : result EditorScreen :=
  files ← _init_files change_data;
  Ok {| change_data := change_data; current_file := "proposal";
        files := files; editors := ∅ |}.

(** [self.files[k]] *)
Definition files_item (k : string) (self : EditorScreen) : result string :=
  match files self !! k with
  | Some text => Ok text
  | None => Err (KeyError k)
  end.

(** The text areas [compose] yields, by id. *)
Definition compose (self : EditorScreen) : result (gmap string string) :=
  proposal ← files_item "proposal" self;
  tasks ← files_item "tasks" self;
  spec ← files_item "spec" self;
  let areas : gmap string string :=
    <["editor_spec" := spec]> (<["editor_tasks" := tasks]>
      (<["editor_proposal" := proposal]> ∅)) in
  match files self !! "design" with
  | Some design => Ok (<["editor_design" := design]> areas)
  | None => Ok areas
  end.

(** [self.query_one("#" + id, TextArea).text] *)
Definition editor_text (id : string) (self : EditorScreen) : result string :=
  match editors self !! id with
  | Some text => Ok text
  | None => Err NoMatches
  end.

(** The user replaces the text of the area [id]. *)
Definition edit (self : EditorScreen) (change : string * string) : EditorScreen :=
  {| change_data := change_data self; current_file := current_file self;
     files := files self;
     editors := match editors self !! change.1 with
                | Some _ => <[change.1 := change.2]> (editors self)
                | None => editors self
                end |}.

(** [Path / str]: the right operand has to be text. *)
Definition truediv (p : path) (v : pyval) : result path :=
  match v with
  | PStr s => joinpath p s
  | PBool _ => Err TypeError
  end.

Definition saved_mark : string :=
  String.string_of_list_ascii (map ascii_of_nat [226; 128; 154; 195; 186; 195; 172]).

Definition action_save (self : EditorScreen) : M unit :=
  name <- lift (dict_item "name" (change_data self));;
  base_path <- lift (Path ("openspec/changes/" +:+ py_str name));;
  update (mkdir base_path);;
  update (write_text (base_path ++ ["metadata.json"]) (Json.dumps (change_data self)));;
  proposal_text <- lift (editor_text "editor_proposal" self);;
  update (write_text (base_path ++ ["proposal.md"]) proposal_text);;
  tasks_text <- lift (editor_text "editor_tasks" self);;
  update (write_text (base_path ++ ["tasks.md"]) tasks_text);;
  feature_area <- lift (dict_item "feature_area" (change_data self));;
  spec_path <- lift (truediv (base_path ++ ["specs"]) feature_area);;
  update (mkdir spec_path);;
  spec_text <- lift (editor_text "editor_spec" self);;
  update (write_text (spec_path ++ ["spec.md"]) spec_text);;
  (match files self !! "design" with
   | Some _ =>
       design_text <- lift (editor_text "editor_design" self);;
       update (write_text (base_path ++ ["design.md"]) design_text)
   | None => ret tt
   end);;
  notify (saved_mark +:+ " Saved to " +:+ path_str base_path) information.

(** ** Screen stack *)

Definition set_stack (st : list screen) (a : app) : app :=
  App st (fs a) (notes a).

Definition push (s : screen) : M unit := fun a =>
  (Ok tt, set_stack (s :: stack a) a).

(** [self.app.pop_screen()] *)
Definition pop_screen : M unit := fun a =>
  (Ok tt, set_stack (tail (stack a)) a).

(** [self.query_one("#recent_changes", Label).update(text)], on the main
    screen when it is the active one. *)
Definition update_recent_label (text : string) : M unit := fun a =>
  match stack a with
  | Main _ :: below => (Ok tt, set_stack (Main {| recent_changes := text |} :: below) a)
  | _ => (Err NoMatches, a)
  end.

(** ** MainScreen *)

Definition changes_dir : path := ["openspec"; "changes"].

Definition bullet : string :=
  String.string_of_list_ascii (map ascii_of_nat [226; 128; 154; 195; 132; 194; 162]).

(** The line shown for one change. *)
Definition change_line (metadata : dict) : result string :=
  name ← dict_item "name" metadata;
  Ok (bullet +:+ " " +:+ py_str name +:+ " ("
      +:+ py_str (dict_get_default "feature_area" (PStr "unknown") metadata) +:+ ")").

(** The body of the loop over [changes_dir.iterdir()]. *)
Definition scan_entry (changes : list string) (change_dir : path) : M (list string) :=
  d <- ask (is_dir change_dir);;
  if d : bool then
    let metadata_file := change_dir ++ ["metadata.json"] in
    e <- ask (exists_ metadata_file);;
    if e : bool then
      text <- try (read_text metadata_file);;
      metadata <- lift (Json.loads text);;
      line <- lift (change_line metadata);;
      ret (changes ++ [line])
    else ret changes
  else ret changes.

Definition _load_recent_changes : M unit :=
  e <- ask (exists_ changes_dir);;
  if e : bool then
    entries <- try (iterdir changes_dir);;
    changes <- for_each entries [] scan_entry;;
    match changes with
    | [] => ret tt
    | _ :: _ => update_recent_label (String.concat (String LF "") (take 10 changes))
    end
  else ret tt.

Definition set_editors (areas : gmap string string) (self : EditorScreen) : EditorScreen :=
  {| change_data := change_data self; current_file := current_file self;
     files := files self; editors := areas |}.

(** [self.app.push_screen(screen)]: the screen goes on top and is mounted. *)
Definition push_screen (s : screen) : M unit :=
  match s with
  | Editor self =>
      areas <- lift (compose self);;
      push (Editor (set_editors areas self))
  | Main _ => push s;; _load_recent_changes
  | NewChange _ => push s
  end.

(** [NewChangeScreen()]: empty inputs, the check box ticked. *)
Definition NewChangeScreen_init : NewChangeScreen :=
  {| change_name := ""; feature_area := ""; author := ""; include_design := true |}.

(** [MainScreen.new_change] from its [await] on; [result] is the awaited
    value, [None] when the modal was dismissed with [None]. *)
Definition new_change_resume (result : option dict) : M unit :=
  match result with
  | Some change_data =>
      match change_data with
      | _ :: _ =>
          self <- lift (EditorScreen_init change_data);;
          push_screen (Editor self)
      | [] => ret tt
      end
  | None => ret tt
  end.

(** [self.app.push_screen_wait(screen)], awaited in a handler that is not
    a worker. Textual puts the screen on the stack and then asks for the
    worker of the caller, to which the result would go; a handler
    registered with [@on] alone has none. *)
Definition push_screen_wait (s : screen) : M (option dict) :=
  push_screen s;; raise NoActiveWorker.

(** [MainScreen.new_change]; [new_change_resume] is what follows its
    [await]. *)
Definition new_change : M unit :=
  result <- push_screen_wait (NewChange NewChangeScreen_init);;
  new_change_resume result.

(** [self.dismiss(result)] on the creation modal: the modal leaves the
    stack and the caller that awaits it goes on with [result]. *)
Definition dismiss (result : option dict) : M unit :=
  pop_screen;; new_change_resume result.

(** The handler of the Create button; [now] is
    [datetime.now().isoformat()]. *)
Definition create_change (now : string) (self : NewChangeScreen) : M unit :=
  if String.eqb (change_name self) "" || String.eqb (feature_area self) "" then
    notify "Change name and feature area are required" error
  else
    let change_data : dict :=
      [("name", PStr (change_name self));
       ("feature_area", PStr (feature_area self));
       ("author", PStr (author self));
       ("include_design", PBool (include_design self));
       ("created_at", PStr now)] in
    dismiss (Some change_data).

(** The handler of the Cancel button. *)
Definition cancel : M unit := dismiss None.

(** The handler of the List Changes button. *)
Definition list_changes : M unit :=
  e <- ask (exists_ changes_dir);;
  if negb e then
    notify "No changes directory found. Create a change first!" warning
  else
    changes <- try (iterdir changes_dir);;
    match changes with
    | _ :: _ =>
        notify ("Found " +:+ pretty (length changes)
                +:+ " change(s) in openspec/changes/") information
    | [] => notify "No changes found" warning
    end.

(** [EditorScreen.action_quit] *)
Definition action_quit : M unit := pop_screen.

(** What a path leads to: a regular file with its text, a directory, or
    nothing. *)
Inductive kind :=
| IsFile (text : string)
| IsDir.

Definition stat (p : path) (fs : node) : option kind :=
  match walk p fs with
  | Ok (File text) => Some (IsFile text)
  | Ok (Dir _) => Some IsDir
  | Err _ => None
  end.

(** No regular file stands at [p]. *)
Definition no_file (p : path) (fs : node) : bool :=
  match stat p fs with
  | Some (IsFile _) => false
  | _ => true
  end.

(** No directory stands at [p]. *)
Definition no_dir (p : path) (fs : node) : bool :=
  match stat p fs with
  | Some IsDir => false
  | _ => true
  end.

(** The editor screen of [metadata] once [push_screen] has mounted it. *)
Definition mounted (metadata : dict) : result EditorScreen :=
  self ← EditorScreen_init metadata;
  areas ← compose self;
  Ok (set_editors areas self).

(** What one turn of the catalog loop finds at [change_dir]: the line of a
    change, or nothing when it is no directory or holds no metadata file. *)
Definition catalog_entry (fs : node) (change_dir : path) : result (option string) :=
  if is_dir change_dir fs && exists_ (change_dir ++ ["metadata.json"]) fs then
    text ← read_text (change_dir ++ ["metadata.json"]) fs;
    metadata ← Json.loads text;
    line ← change_line metadata;
    Ok (Some line)
  else Ok None.

(** Handlers that leave the screens and the notifications alone, and
    handlers that leave everything alone. *)
Definition quiet {A} (m : M A) : Prop :=
  ∀ a, stack (m a).2 = stack a ∧ notes (m a).2 = notes a.

Definition read_only {A} (m : M A) : Prop :=
  ∀ a, (m a).2 = a.

(** Handlers whose only trace on the screens and notifications is the
    notification [n], emitted when they return. *)
Definition notifies {A} (n : notification) (m : M A) : Prop :=
  ∀ a, stack (m a).2 = stack a ∧
       notes (m a).2 = match (m a).1 with
                       | Ok _ => notes a ++ [n]
                       | Err _ => notes a
                       end.

(** Handlers that change nothing when they raise. *)
Definition harmless {A} (m : M A) : Prop :=
  ∀ a, match (m a).1 with
       | Ok _ => True
       | Err _ => (m a).2 = a
       end.

(** ** The shown name, in the words of the specification

    Hyphens become spaces and the name is title-cased: a letter that
    starts a word is a capital, a letter that follows a letter is a small
    one. Written on character codes, for names of ASCII; the program's
    [title] and [replace] are compared with it. *)
Definition is_letter_code (n : N) : bool :=
  ((65 <=? n)%N && (n <=? 90)%N) || ((97 <=? n)%N && (n <=? 122)%N).

Definition title_cased (after_letter : bool) (c : ascii) : ascii :=
  let n := code c in
  if (n =? 45)%N then chr 32
  else if (97 <=? n)%N && (n <=? 122)%N && negb after_letter then chr (n - 32)
  else if (65 <=? n)%N && (n <=? 90)%N && after_letter then chr (n + 32)
  else c.

(** Whether the character before position [i] of [name] is a letter. *)
Definition after_letter (name : string) (i : nat) : bool :=
  match i with
  | O => false
  | S j =>
      match String.get j name with
      | Some p => is_letter_code (code p)
      | None => false
      end
  end.

(** ** The writes of a save, in their order

    What [action_save] asks of the filesystem, one step after the other,
    and the filesystem after a sequence of steps that all succeed. *)
Definition save_steps (metadata : dict) (base_path spec_path : path)
    (proposal tasks spec : string) (design : option string) : list (node -> result node) :=
  [mkdir base_path;
   write_text (base_path ++ ["metadata.json"]) (Json.dumps metadata);
   write_text (base_path ++ ["proposal.md"]) proposal;
   write_text (base_path ++ ["tasks.md"]) tasks;
   mkdir spec_path;
   write_text (spec_path ++ ["spec.md"]) spec]
  ++ match design with
     | Some text => [write_text (base_path ++ ["design.md"]) text]
     | None => []
     end.

Fixpoint run_steps (steps : list (node -> result node)) (n : node) : result node :=
  match steps with
  | [] => Ok n
  | step :: steps' => n' ← step n; run_steps steps' n'
  end.

(** ** Further parts of the screens *)






(** ** Sample states *)

Definition sample_metadata (author now : string) : dict :=
  [("name", PStr "add-user-profile");
   ("feature_area", PStr "auth");
   ("author", PStr author);
   ("include_design", PBool true);
   ("created_at", PStr now)].

Definition sample_form : NewChangeScreen :=
  {| change_name := "add-user-profile"; feature_area := "auth";
     author := ""; include_design := true |}.

Definition fresh_label : string := "[dim]Recent changes will appear here[/dim]".

(** The main menu over a filesystem. *)
Definition main_over (fs : node) : app :=
  App [Main {| recent_changes := fresh_label |}] fs [].

(** A working directory in which [openspec] is a regular file, and one in
    which [openspec/changes] is. *)
Definition blocked_fs : node := Dir [("openspec", File "notes")].
Definition blocked_changes_fs : node :=
  Dir [("openspec", Dir [("changes", File "notes")])].

(** A working directory in which the proposal of the sample change is a
    directory, and one in which the metadata of the change [wip] is. *)
Definition blocked_proposal_fs : node :=
  Dir [("openspec",
        Dir [("changes", Dir [("add-user-profile", Dir [("proposal.md", Dir [])])])])].
Definition blocked_metadata_fs : node :=
  Dir [("openspec", Dir [("changes", Dir [("wip", Dir [("metadata.json", Dir [])])])])].

(** A changes directory that holds one directory without metadata. *)
Definition bare_fs : node :=
  Dir [("openspec", Dir [("changes", Dir [("wip", Dir [])])])].

(** A changes directory with the changes [names], each in the feature
    area [auth]. *)
Definition change_node (name : string) : string * node :=
  (name, Dir [("metadata.json",
               File (Json.dumps [("name", PStr name); ("feature_area", PStr "auth")]))]).
Definition catalog_fs (names : list string) : node :=
  Dir [("openspec", Dir [("changes", Dir (map change_node names))])].
Definition eleven : list string :=
  ["c01"; "c02"; "c03"; "c04"; "c05"; "c06"; "c07"; "c08"; "c09"; "c10"; "c11"].

(** The editor of the sample change open above the main menu. *)
Definition editing_over (fs : node) (self : EditorScreen) : app :=
  App [Editor self; Main {| recent_changes := fresh_label |}] fs [].

(** The mounted editor of the sample change, the author left blank. *)
Definition sample_now : string := "2024-05-01T09:30:00".
Definition sample_editor : EditorScreen :=
  match mounted (sample_metadata "" sample_now) with
  | Ok self => self
  | Err _ =>
      {| change_data := []; current_file := ""; files := ∅; editors := ∅ |}
  end.

(** The line the main menu shows for one of the changes of [catalog_fs]. *)
Definition sample_line (name : string) : string :=
  bullet +:+ " " +:+ name +:+ " (auth)".

(** * Properties *)

(** ** Association lists *)

Section alist_facts.
Context {A : Type}.
Implicit Types (l : list (string * A)) (k : string) (v : A).

Lemma alist_get_set_eq k v l : alist_get k (alist_set k v l) = Some v.
Proof.
  induction l as [|[k' v'] l IH]; simpl.
  - by rewrite String.eqb_refl.
  - destruct (String.eqb k k') eqn:E; simpl.
    + by rewrite String.eqb_refl.
    + by rewrite E.
Qed.

Lemma alist_get_set_ne k k' v l :
  k ≠ k' → alist_get k' (alist_set k v l) = alist_get k' l.
Proof.
  intros Hne. induction l as [|[k0 v0] l IH]; simpl.
  - destruct (String.eqb k' k) eqn:E; [|done].
    apply String.eqb_eq in E. congruence.
  - destruct (String.eqb k k0) eqn:E; simpl.
    + apply String.eqb_eq in E as <-.
      destruct (String.eqb k' k) eqn:E'; [|done].
      apply String.eqb_eq in E'. congruence.
    + by rewrite IH.
Qed.

Lemma alist_get_None k l : alist_get k l = None ↔ k ∉ l.*1.
Proof.
  induction l as [|[k' v'] l IH]; simpl.
  - split; [intros _; apply not_elem_of_nil | done].
  - rewrite not_elem_of_cons. destruct (String.eqb k k') eqn:E.
    + apply String.eqb_eq in E. split; [done | intros [? _]; done].
    + apply String.eqb_neq in E. rewrite IH. tauto.
Qed.

Lemma alist_set_fresh k v l : k ∉ l.*1 → alist_set k v l = l ++ [(k, v)].
Proof.
  induction l as [|[k' v'] l IH]; simpl; [done|].
  rewrite not_elem_of_cons. intros [Hne Hni].
  destruct (String.eqb k k') eqn:E.
  - apply String.eqb_eq in E. done.
  - by rewrite IH.
Qed.

Lemma alist_get_app_fresh k k' v l :
  alist_get k l = None →
  alist_get k' (l ++ [(k, v)]) =
    if decide (k' = k) then Some v else alist_get k' l.
Proof.
  intros Hk. induction l as [|[k0 v0] l IH]; simpl in *.
  - case_decide as Hd.
    + subst. by rewrite String.eqb_refl.
    + apply String.eqb_neq in Hd. by rewrite Hd.
  - destruct (String.eqb k k0) eqn:E; [done|].
    destruct (String.eqb k' k0) eqn:E'.
    + apply String.eqb_eq in E' as ->. apply String.eqb_neq in E.
      by rewrite decide_False.
    + by apply IH.
Qed.
End alist_facts.

(** ** Text, paths and formats on small inputs *)

Example title_of_change_name :
  title (replace "-" " " "add-user-profile") = "Add User Profile".
Proof. reflexivity. Qed.

Example title_lowers_inside_words : title "addUser x2y it's" = "Adduser X2Y It'S".
Proof. reflexivity. Qed.

Example Path_drops_empty_components :
  Path "openspec/changes//a/./b/" = Ok ["openspec"; "changes"; "a"; "b"].
Proof. reflexivity. Qed.

Example Path_parent_component : Path "openspec/changes/../x" = Err Unmodelled.
Proof. reflexivity. Qed.

Example format_doubled_braces : format "{{x}} {y}" [("y", PBool true)] = Ok "{x} True".
Proof. reflexivity. Qed.

(** The first failure in reading order is the one raised. *)
Example format_reading_order :
  format "{a} }" [] = Err (KeyError "a") ∧ format "} {a}" [] = Err ValueError.
Proof. split; reflexivity. Qed.

Example format_positional : format "{}" [("name", PStr "x")] = Err IndexError.
Proof. reflexivity. Qed.

(** ** Template instantiation *)

(** Each template with its slots filled: the text around the slots is that
    of the template, the doubled braces of the design template become
    single ones. *)
Lemma format_PROPOSAL_TEMPLATE :
  ∃ rest,
    PROPOSAL_TEMPLATE = "# Proposal: {name}" +:+ rest ∧
    ∀ v, format PROPOSAL_TEMPLATE [("name", v)]
         = Ok ("# Proposal: " +:+ py_str v +:+ rest).
Proof.
  exists (String.substring 18 893 PROPOSAL_TEMPLATE).
  split.
  - vm_compute. reflexivity.
  - intros v. vm_compute. reflexivity.
Qed.

Lemma format_TASKS_TEMPLATE :
  ∃ rest,
    TASKS_TEMPLATE = "# Implementation Tasks: {name}" +:+ rest ∧
    ∀ v, format TASKS_TEMPLATE [("name", v)]
         = Ok ("# Implementation Tasks: " +:+ py_str v +:+ rest).
Proof.
  exists (String.substring 30 468 TASKS_TEMPLATE).
  split.
  - vm_compute. reflexivity.
  - intros v. vm_compute. reflexivity.
Qed.

Lemma format_DESIGN_TEMPLATE :
  ∃ mid body rest,
    DESIGN_TEMPLATE
      = "# Design Document: {name}" +:+ mid +:+ "{{" +:+ body +:+ "}}" +:+ rest ∧
    ∀ v, format DESIGN_TEMPLATE [("name", v)]
         = Ok ("# Design Document: " +:+ py_str v +:+ mid
               +:+ "{" +:+ body +:+ "}" +:+ rest).
Proof.
  exists (String.substring 25 445 DESIGN_TEMPLATE),
    (String.substring 472 22 DESIGN_TEMPLATE),
    (String.substring 496 193 DESIGN_TEMPLATE).
  split.
  - vm_compute. reflexivity.
  - intros v. vm_compute. reflexivity.
Qed.

Lemma format_SPEC_TEMPLATE :
  ∃ s1 s2 s3,
    SPEC_TEMPLATE
      = "# {feature_area}" +:+ s1 +:+ "{name}" +:+ s2 +:+ "{feature_area}" +:+ s3 ∧
    ∀ name feature_area,
      format SPEC_TEMPLATE [("name", name); ("feature_area", feature_area)]
      = Ok ("# " +:+ py_str feature_area +:+ s1 +:+ py_str name +:+ s2
            +:+ py_str feature_area +:+ s3).
Proof.
  exists (String.substring 16 64 SPEC_TEMPLATE),
    (String.substring 86 51 SPEC_TEMPLATE),
    (String.substring 151 461 SPEC_TEMPLATE).
  split.
  - vm_compute. reflexivity.
  - intros name feature_area. vm_compute. reflexivity.
Qed.

(** The first slot the spec template reaches is [feature_area]. *)
Lemma markup_SPEC_TEMPLATE :
  ∃ ps, markup None SPEC_TEMPLATE
        = Literal "#" :: Literal " " :: Field "feature_area" :: ps.
Proof. eexists. vm_compute. reflexivity. Qed.

(** ** Session creation *)

(** [_init_files] on metadata whose name is text and whose feature area is
    present: the four instantiations succeed and the files are those. *)
Lemma init_files_spec (metadata : dict) (name : string) (feature_area : pyval) :
  dict_get "name" metadata = Some (PStr name) →
  dict_get "feature_area" metadata = Some feature_area →
  ∃ proposal tasks spec design : string,
    let shown := PStr (title (replace "-" " " name)) in
    let three : gmap string string :=
      <["spec" := spec]> (<["tasks" := tasks]> (<["proposal" := proposal]> ∅)) in
    format PROPOSAL_TEMPLATE [("name", shown)] = Ok proposal ∧
    format TASKS_TEMPLATE [("name", shown)] = Ok tasks ∧
    format SPEC_TEMPLATE [("name", PStr name); ("feature_area", feature_area)]
      = Ok spec ∧
    format DESIGN_TEMPLATE [("name", shown)] = Ok design ∧
    _init_files metadata
      = Ok (if truthy (dict_get_default "include_design" (PBool false) metadata)
            then <["design" := design]> three else three).
Proof.
  intros Hname Harea.
  destruct format_PROPOSAL_TEMPLATE as (rp & _ & Hp).
  destruct format_TASKS_TEMPLATE as (rt & _ & Ht).
  destruct format_SPEC_TEMPLATE as (s1 & s2 & s3 & _ & Hs).
  destruct format_DESIGN_TEMPLATE as (m & b & rd & _ & Hd).
  eexists _, _, _, _. cbv zeta.
  split; [apply Hp|]. split; [apply Ht|]. split; [apply Hs|]. split; [apply Hd|].
  unfold _init_files, dict_item. rewrite Hname, Harea.
  cbn -[format truthy]. rewrite Hp. cbn -[format truthy].
  rewrite Ht. cbn -[format truthy]. rewrite Hs. cbn -[format truthy].
  destruct (truthy _); [|done].
  rewrite Hd. done.
Qed.

(** The screen built from such metadata and the text areas it mounts. *)
Lemma session_spec (metadata : dict) (name : string) (feature_area : pyval) :
  dict_get "name" metadata = Some (PStr name) →
  dict_get "feature_area" metadata = Some feature_area →
  ∃ (self : EditorScreen) (areas : gmap string string)
    (proposal tasks spec design : string),
    let shown := PStr (title (replace "-" " " name)) in
    let flag := truthy (dict_get_default "include_design" (PBool false) metadata) in
    format PROPOSAL_TEMPLATE [("name", shown)] = Ok proposal ∧
    format TASKS_TEMPLATE [("name", shown)] = Ok tasks ∧
    format SPEC_TEMPLATE [("name", PStr name); ("feature_area", feature_area)]
      = Ok spec ∧
    format DESIGN_TEMPLATE [("name", shown)] = Ok design ∧
    EditorScreen_init metadata = Ok self ∧
    compose self = Ok areas ∧
    change_data self = metadata ∧
    editors self = ∅ ∧
    files self =
      (let three : gmap string string :=
         <["spec" := spec]> (<["tasks" := tasks]> (<["proposal" := proposal]> ∅)) in
       if flag then <["design" := design]> three else three) ∧
    areas =
      (let three : gmap string string :=
         <["editor_spec" := spec]> (<["editor_tasks" := tasks]>
           (<["editor_proposal" := proposal]> ∅)) in
       if flag then <["editor_design" := design]> three else three).
Proof.
  intros Hname Harea.
  destruct (init_files_spec _ _ _ Hname Harea)
    as (proposal & tasks & spec & design & Hp & Ht & Hs & Hd & Hinit).
  cbv zeta in *.
  unfold EditorScreen_init. rewrite Hinit. clear Hinit.
  destruct (truthy _); eexists _, _, proposal, tasks, spec, design;
    (split; [exact Hp|]); (split; [exact Ht|]); (split; [exact Hs|]);
    (split; [exact Hd|]); (split; [reflexivity|]);
    clear Hp Ht Hs Hd;
    unfold compose, files_item; cbn [files mbind result_bind];
    simplify_map_eq; done.
Qed.

(** C3. Session creation on metadata whose [include_design] is the boolean
    [b] yields files for exactly the keys [proposal], [tasks] and [spec]
    (the roles Proposal, Tasks and SpecDelta) when [b] is false, and for
    those and [design] when [b] is true; the text areas mounted for the
    session are the editors of the same roles. *)
Theorem session_roles (metadata : dict) (name : string) (feature_area : pyval) (b : bool) :
  dict_get "name" metadata = Some (PStr name) →
  dict_get "feature_area" metadata = Some feature_area →
  dict_get "include_design" metadata = Some (PBool b) →
  ∃ self areas,
    EditorScreen_init metadata = Ok self ∧
    compose self = Ok areas ∧
    dom (files self) =
      (if b then {["proposal"; "tasks"; "spec"; "design"]}
       else {["proposal"; "tasks"; "spec"]} : gset string) ∧
    dom areas =
      (if b then {["editor_proposal"; "editor_tasks"; "editor_spec"; "editor_design"]}
       else {["editor_proposal"; "editor_tasks"; "editor_spec"]} : gset string).
Proof.
  intros Hname Harea Hdesign.
  destruct (session_spec _ _ _ Hname Harea)
    as (self & areas & proposal & tasks & spec & design
        & _ & _ & _ & _ & Hinit & Hcompose & _ & _ & Hfiles & Hareas).
  exists self, areas. split; [exact Hinit|]. split; [exact Hcompose|].
  rewrite Hfiles, Hareas. unfold dict_get_default. rewrite Hdesign.
  destruct b; cbn [truthy]; rewrite !dom_insert_L, dom_empty_L; split; set_solver.
Qed.

Lemma session_roles_witness :
  ∃ self areas,
    EditorScreen_init
      [("name", PStr "add-user-profile"); ("feature_area", PStr "auth");
       ("include_design", PBool false)] = Ok self ∧
    compose self = Ok areas ∧
    dom (files self) = ({["proposal"; "tasks"; "spec"]} : gset string) ∧
    dom areas = ({["editor_proposal"; "editor_tasks"; "editor_spec"]} : gset string).
Proof.
  apply (session_roles _ "add-user-profile" (PStr "auth") false); reflexivity.
Defined.

(** C10. When the metadata has no [include_design] key at all, session
    creation raises nothing and takes the flag as false: the files are
    exactly those of [proposal], [tasks] and [spec], and so are the
    mounted text areas. *)
Theorem session_roles_without_flag (metadata : dict) (name : string) (feature_area : pyval) :
  dict_get "name" metadata = Some (PStr name) →
  dict_get "feature_area" metadata = Some feature_area →
  dict_get "include_design" metadata = None →
  ∃ self areas,
    EditorScreen_init metadata = Ok self ∧
    compose self = Ok areas ∧
    dom (files self) = ({["proposal"; "tasks"; "spec"]} : gset string) ∧
    dom areas = ({["editor_proposal"; "editor_tasks"; "editor_spec"]} : gset string).
Proof.
  intros Hname Harea Hdesign.
  destruct (session_spec _ _ _ Hname Harea)
    as (self & areas & proposal & tasks & spec & design
        & _ & _ & _ & _ & Hinit & Hcompose & _ & _ & Hfiles & Hareas).
  exists self, areas. split; [exact Hinit|]. split; [exact Hcompose|].
  rewrite Hfiles, Hareas. unfold dict_get_default. rewrite Hdesign.
  cbn [truthy]. rewrite !dom_insert_L, dom_empty_L. split; set_solver.
Qed.

Lemma session_roles_without_flag_witness :
  ∃ self areas,
    EditorScreen_init
      [("name", PStr "add-user-profile"); ("feature_area", PStr "auth")] = Ok self ∧
    compose self = Ok areas ∧
    dom (files self) = ({["proposal"; "tasks"; "spec"]} : gset string) ∧
    dom areas = ({["editor_proposal"; "editor_tasks"; "editor_spec"]} : gset string).
Proof.
  apply (session_roles_without_flag _ "add-user-profile" (PStr "auth")); reflexivity.
Defined.

(** The program's casing agrees with the specification's, character by
    character. *)
Lemma title_from_cons (b : bool) (c : ascii) (r : string) :
  title_from b (String (if Ascii.eqb c "-" then " "%char else c) r)
  = String (title_cased b c) (title_from (is_letter_code (code c)) r).
Proof.
  destruct c as [[] [] [] [] [] [] [] []]; destruct b; reflexivity.
Qed.

Lemma title_from_length (s : string) (b : bool) :
  String.length (title_from b (replace "-" " " s)) = String.length s.
Proof.
  revert b. induction s as [|c s IH]; intros b; [done|].
  cbn [replace]. rewrite title_from_cons. cbn [String.length]. by rewrite IH.
Qed.

Lemma title_from_get (s : string) (b : bool) (i : nat) (c : ascii) :
  String.get i s = Some c →
  String.get i (title_from b (replace "-" " " s))
  = Some (title_cased
            (match i with
             | O => b
             | S _ => after_letter s i
             end) c).
Proof.
  revert b i. induction s as [|c0 s IH]; intros b i Hget; [by destruct i|].
  cbn [replace]. rewrite title_from_cons.
  destruct i as [|i]; cbn [String.get] in *.
  - by injection Hget as ->.
  - rewrite (IH _ _ Hget). unfold after_letter. by destruct i.
Qed.

(** C5. The initial texts of a session. The spec file is its template
    instantiated with the name and the feature area as they are in the
    metadata, whatever they are. For a name of ASCII, the proposal, tasks
    and design files are their templates instantiated with the shown name:
    it is as long as the name, every hyphen of the name is a space in it,
    a small letter that follows no letter is its capital, a capital that
    follows a letter is its small letter, and every other character is
    itself. The texts are spelled out: the template's own text around the
    substituted values. Each mounted text area starts with the text of its
    file. *)
Theorem initial_texts (metadata : dict) (name : string) (feature_area : pyval) :
  dict_get "name" metadata = Some (PStr name) →
  dict_get "feature_area" metadata = Some feature_area →
  ∃ (self : EditorScreen) (areas : gmap string string) (spec : string),
    EditorScreen_init metadata = Ok self ∧
    compose self = Ok areas ∧
    (* the spec file: the values as they are *)
    format SPEC_TEMPLATE [("name", PStr name); ("feature_area", feature_area)]
      = Ok spec ∧
    (∃ s1 s2 s3,
       SPEC_TEMPLATE = "# {feature_area}" +:+ s1 +:+ "{name}" +:+ s2
                       +:+ "{feature_area}" +:+ s3 ∧
       spec = "# " +:+ py_str feature_area +:+ s1 +:+ name +:+ s2
              +:+ py_str feature_area +:+ s3) ∧
    files self !! "spec" = Some spec ∧
    areas !! "editor_proposal" = files self !! "proposal" ∧
    areas !! "editor_tasks" = files self !! "tasks" ∧
    areas !! "editor_spec" = files self !! "spec" ∧
    areas !! "editor_design" = files self !! "design" ∧
    (* the other files: the shown name *)
    (is_ascii name = true →
     ∃ shown proposal tasks design : string,
       String.length shown = String.length name ∧
       (∀ (i : nat) (c : ascii),
          String.get i name = Some c →
          String.get i shown = Some (title_cased (after_letter name i) c)) ∧
       format PROPOSAL_TEMPLATE [("name", PStr shown)] = Ok proposal ∧
       format TASKS_TEMPLATE [("name", PStr shown)] = Ok tasks ∧
       format DESIGN_TEMPLATE [("name", PStr shown)] = Ok design ∧
       (∃ rest, PROPOSAL_TEMPLATE = "# Proposal: {name}" +:+ rest ∧
                proposal = "# Proposal: " +:+ shown +:+ rest) ∧
       (∃ rest, TASKS_TEMPLATE = "# Implementation Tasks: {name}" +:+ rest ∧
                tasks = "# Implementation Tasks: " +:+ shown +:+ rest) ∧
       (∃ mid body rest,
          DESIGN_TEMPLATE = "# Design Document: {name}" +:+ mid
                            +:+ "{{" +:+ body +:+ "}}" +:+ rest ∧
          design = "# Design Document: " +:+ shown +:+ mid
                   +:+ "{" +:+ body +:+ "}" +:+ rest) ∧
       files self !! "proposal" = Some proposal ∧
       files self !! "tasks" = Some tasks ∧
       files self !! "design" =
         (if truthy (dict_get_default "include_design" (PBool false) metadata)
          then Some design else None)).
Proof.
  intros Hname Harea.
  destruct (session_spec _ _ _ Hname Harea)
    as (self & areas & proposal & tasks & spec & design
        & Hp & Ht & Hs & Hd & Hinit & Hcompose & _ & _ & Hfiles & Hareas).
  cbv zeta in *.
  set (shown := title (replace "-" " " name)) in *.
  exists self, areas, spec.
  split; [exact Hinit|]. split; [exact Hcompose|]. split; [exact Hs|].
  split.
  { destruct format_SPEC_TEMPLATE as (s1 & s2 & s3 & E & H). exists s1, s2, s3.
    split; [exact E|].
    specialize (H (PStr name) feature_area). rewrite Hs in H. by injection H. }
  assert (files self !! "spec" = Some spec
          ∧ areas !! "editor_proposal" = files self !! "proposal"
          ∧ areas !! "editor_tasks" = files self !! "tasks"
          ∧ areas !! "editor_spec" = files self !! "spec"
          ∧ areas !! "editor_design" = files self !! "design"
          ∧ files self !! "proposal" = Some proposal
          ∧ files self !! "tasks" = Some tasks
          ∧ files self !! "design" =
              (if truthy (dict_get_default "include_design" (PBool false) metadata)
               then Some design else None)) as Hlookups.
  { clear Hp Ht Hs Hd Hinit Hcompose.
    rewrite Hfiles, Hareas.
    destruct (truthy _); simplify_map_eq; done. }
  destruct Hlookups as (Hfs & Hap & Hat & Has & Had & Hfp & Hft & Hfd).
  split; [exact Hfs|]. split; [exact Hap|]. split; [exact Hat|].
  split; [exact Has|]. split; [exact Had|].
  intros _. exists shown, proposal, tasks, design.
  split; [apply title_from_length|].
  split.
  { intros i c Hget. unfold shown, title. rewrite (title_from_get _ _ _ _ Hget).
    by destruct i. }
  split; [exact Hp|]. split; [exact Ht|]. split; [exact Hd|].
  split.
  { destruct format_PROPOSAL_TEMPLATE as (r & E & H). exists r. split; [exact E|].
    specialize (H (PStr shown)). rewrite Hp in H. by injection H. }
  split.
  { destruct format_TASKS_TEMPLATE as (r & E & H). exists r. split; [exact E|].
    specialize (H (PStr shown)). rewrite Ht in H. by injection H. }
  split.
  { destruct format_DESIGN_TEMPLATE as (m & b & r & E & H). exists m, b, r.
    split; [exact E|].
    specialize (H (PStr shown)). rewrite Hd in H. by injection H. }
  split; [exact Hfp|]. split; [exact Hft|]. exact Hfd.
Qed.

Lemma initial_texts_witness :
  ∃ (self : EditorScreen) (spec shown : string),
    EditorScreen_init
      [("name", PStr "add-user-PROFILE"); ("feature_area", PStr "auth");
       ("include_design", PBool true)] = Ok self ∧
    (∃ s1 s2 s3,
       SPEC_TEMPLATE = "# {feature_area}" +:+ s1 +:+ "{name}" +:+ s2
                       +:+ "{feature_area}" +:+ s3 ∧
       spec = "# auth" +:+ s1 +:+ "add-user-PROFILE" +:+ s2 +:+ "auth" +:+ s3) ∧
    files self !! "spec" = Some spec ∧
    String.length shown = 16 ∧
    String.get 0 shown = Some "A"%char ∧
    String.get 3 shown = Some " "%char ∧
    String.get 9 shown = Some "P"%char ∧
    String.get 10 shown = Some "r"%char ∧
    (∃ rest, PROPOSAL_TEMPLATE = "# Proposal: {name}" +:+ rest ∧
             files self !! "proposal" = Some ("# Proposal: " +:+ shown +:+ rest)).
Proof.
  destruct (initial_texts
              [("name", PStr "add-user-PROFILE"); ("feature_area", PStr "auth");
               ("include_design", PBool true)]
              "add-user-PROFILE" (PStr "auth") eq_refl eq_refl)
    as (self & areas & spec & Hinit & _ & _ & Hspec & Hfs & _ & _ & _ & _ & Hshown).
  destruct (Hshown eq_refl)
    as (shown & proposal & tasks & design & Hlen & Hget & _ & _ & _
        & (rest & Hrest & ->) & _ & _ & Hfp & _).
  exists self, spec, shown. split; [exact Hinit|]. split; [exact Hspec|].
  split; [exact Hfs|]. split; [exact Hlen|].
  split; [exact (Hget 0%nat "a"%char eq_refl)|].
  split; [exact (Hget 3%nat "-"%char eq_refl)|].
  split; [exact (Hget 9%nat "P"%char eq_refl)|].
  split; [exact (Hget 10%nat "R"%char eq_refl)|].
  exists rest. split; [exact Hrest | exact Hfp].
Defined.

(** C4. Instantiating the spec template with parameters that give no value
    for [feature_area] raises [KeyError] for that slot (the missing-slot
    failure) and returns no text, whatever else is supplied; session
    creation on metadata that has a name and no feature area fails the
    same way. *)
Theorem spec_template_missing_slot (kwargs : dict) :
  dict_get "feature_area" kwargs = None →
  format SPEC_TEMPLATE kwargs = Err (KeyError "feature_area") ∧
  (is_Some (dict_get "name" kwargs) →
   _init_files kwargs = Err (KeyError "feature_area")).
Proof.
  intros Hnone. split.
  - destruct markup_SPEC_TEMPLATE as (ps & Hps).
    unfold format. rewrite Hps. cbn [vformat].
    unfold get_value, dict_item. rewrite Hnone. reflexivity.
  - intros [v Hv]. unfold _init_files, dict_item. rewrite Hv, Hnone. reflexivity.
Qed.

Lemma spec_template_missing_slot_witness :
  format SPEC_TEMPLATE [("name", PStr "add-user-profile")]
    = Err (KeyError "feature_area") ∧
  (is_Some (dict_get "name" [("name", PStr "add-user-profile")]) →
   _init_files [("name", PStr "add-user-profile")] = Err (KeyError "feature_area")).
Proof.
  apply (spec_template_missing_slot [("name", PStr "add-user-profile")]).
  reflexivity.
Defined.

(** ** The filesystem *)

Lemma stat_nil_Dir es : stat [] (Dir es) = Some IsDir.
Proof. reflexivity. Qed.

Lemma stat_cons_File x p text : stat (x :: p) (File text) = None.
Proof. reflexivity. Qed.

Lemma stat_cons_Dir x p es :
  stat (x :: p) (Dir es) =
    match alist_get x es with
    | Some c => stat p c
    | None => None
    end.
Proof. unfold stat. simpl. by destruct (alist_get x es). Qed.

Lemma stat_above_empty p : stat p (Dir []) = if decide (p = []) then Some IsDir else None.
Proof. by destruct p. Qed.

(** [mkdir] goes through when no regular file stands on the way, and then
    makes directories of the path and of all that leads to it, and nothing
    else. *)
Lemma mkdir_spec (p : path) (n : node) :
  (∀ q, q `prefix_of` p → no_file q n = true) →
  ∃ n', mkdir p n = Ok n' ∧
        ∀ q, stat q n' = if decide (q `prefix_of` p) then Some IsDir else stat q n.
Proof.
  revert n. induction p as [|x p IH]; intros n Hfree.
  - pose proof (Hfree [] (prefix_nil _)) as H0.
    destruct n as [text|es]; [done|].
    exists (Dir es). split; [done|]. intros q. case_decide as Hq; [|done].
    apply prefix_nil_inv in Hq as ->. done.
  - pose proof (Hfree [] (prefix_nil _)) as H0.
    destruct n as [text|es]; [done|]. simpl.
    destruct (IH (default (Dir []) (alist_get x es))) as (c' & Hc' & Hstat).
    { intros q Hq. specialize (Hfree (x :: q) (prefix_cons _ _ _ Hq)).
      unfold no_file in *. rewrite stat_cons_Dir in Hfree.
      destruct (alist_get x es); [done|]. simpl.
      rewrite stat_above_empty. by case_decide. }
    rewrite Hc'. simpl. eexists. split; [done|]. intros q.
    destruct q as [|y q].
    + rewrite decide_True by apply prefix_nil. done.
    + rewrite !stat_cons_Dir. destruct (decide (y = x)) as [->|Hne].
      * rewrite alist_get_set_eq, Hstat.
        destruct (decide (q `prefix_of` p)) as [Hq|Hq].
        -- rewrite decide_True; [done|]. by apply prefix_cons.
        -- rewrite decide_False.
           2:{ intros H. by apply prefix_cons_inv_2 in H. }
           destruct (alist_get x es); [done|]. simpl.
           rewrite stat_above_empty. case_decide; [|done]. subst.
           destruct Hq. apply prefix_nil.
      * rewrite alist_get_set_ne by done.
        rewrite decide_False; [done|].
        intros H. apply prefix_cons_inv_1 in H. done.
Qed.

(** [write_text] goes through when the parent is a directory and the
    target is not one, and then the target is a file of that text and
    nothing else changed. *)
Lemma write_text_spec (parent : path) (x : string) (text : string) (n : node) :
  stat parent n = Some IsDir →
  no_dir (parent ++ [x]) n = true →
  ∃ n', write_text (parent ++ [x]) text n = Ok n' ∧
        ∀ q, stat q n' =
               if decide (q = parent ++ [x]) then Some (IsFile text) else stat q n.
Proof.
  revert n. induction parent as [|z parent IH]; intros n Hparent Htarget.
  - destruct n as [t|es]; [done|]. simpl in *.
    unfold no_dir in Htarget. rewrite stat_cons_Dir in Htarget.
    destruct (alist_get x es) as [c|] eqn:Hx.
    + destruct c as [t|es']; [|done]. simpl.
      eexists. split; [done|]. intros [|y q]; [done|].
      rewrite !stat_cons_Dir. destruct (decide (y = x)) as [->|Hne].
      * rewrite alist_get_set_eq, Hx. destruct q; [by rewrite decide_True|].
        by rewrite decide_False.
      * rewrite alist_get_set_ne by done. rewrite decide_False; [done|]. congruence.
    + eexists. split; [done|]. intros [|y q]; [done|].
      rewrite !stat_cons_Dir, (alist_get_app_fresh _ _ _ _ Hx).
      destruct (decide (y = x)) as [->|Hne].
      * rewrite Hx. destruct q; [by rewrite decide_True|]. by rewrite decide_False.
      * rewrite decide_False; [done|]. congruence.
  - destruct n as [t|es]; [done|]. simpl.
    rewrite stat_cons_Dir in Hparent.
    unfold no_dir in Htarget. simpl in Htarget. rewrite stat_cons_Dir in Htarget.
    destruct (alist_get z es) as [c|] eqn:Hz; [|done].
    destruct (IH c Hparent) as (c' & Hc' & Hstat); [done|].
    rewrite Hc'. simpl. eexists. split; [done|]. intros [|y q]; [done|].
    rewrite !stat_cons_Dir. destruct (decide (y = z)) as [->|Hne].
    + rewrite alist_get_set_eq, Hz, Hstat.
      destruct (decide (q = parent ++ [x])) as [->|Hq].
      * by rewrite !decide_True by done.
      * by rewrite !decide_False by congruence.
    + rewrite alist_get_set_ne by done. rewrite decide_False; [done|]. congruence.
Qed.

(** ** The JSON codec *)

Lemma append_cons (c : ascii) (s t : string) : String c s +:+ t = String c (s +:+ t).
Proof. reflexivity. Qed.

Lemma append_assoc (s1 s2 s3 : string) : (s1 +:+ s2) +:+ s3 = s1 +:+ (s2 +:+ s3).
Proof.
  induction s1 as [|c s1 IH]; [done|].
  by rewrite !append_cons, IH.
Qed.

Lemma append_nil_r (s : string) : s +:+ "" = s.
Proof.
  induction s as [|c s IH]; [done|].
  by rewrite append_cons, IH.
Qed.

Module JsonFacts.
Import Json.

#[local] Ltac Zify.zify_post_hook ::= Z.to_euclidean_division_equations.

Lemma chr_code (c : ascii) : chr (code c) = c.
Proof. apply ascii_N_embedding. Qed.

Lemma code_lt (c : ascii) : (code c < 256)%N.
Proof. apply N_ascii_bounded. Qed.

Lemma hex_value_digit (d : N) : (d < 16)%N → hex_value (hex_digit d) = Some d.
Proof.
  intros H. destruct d as [|p]; [reflexivity|].
  do 4 (destruct p as [p|p|]; try reflexivity); lia.
Qed.

Lemma scan_hex_digit (acc : string) (high : option N) (more : nat) (value d : N) :
  (d < 16)%N →
  scan (Uni acc high more value) (hex_digit d)
  = match more with
    | S more' => Ok (None, Uni acc high more' (16 * value + d)%N)
    | O => m' ← finish acc high (16 * value + d)%N; Ok (None, m')
    end.
Proof.
  intros H. unfold scan. rewrite hex_value_digit by done.
  destruct d as [|p]; [reflexivity|].
  do 4 (destruct p as [p|p|]; try reflexivity); lia.
Qed.

Lemma lex_cons (m : mode) (c : ascii) (r : string) :
  lex m (String c r)
  = match scan m c with
    | Ok (Some t, m') => cons t <$> lex m' r
    | Ok (None, m') => lex m' r
    | Err e => Err e
    end.
Proof. reflexivity. Qed.

(** The four digits of an escape give back its number. *)
Lemma lex_hex4 (acc : string) (high : option N) (n : N) (tail : string) :
  (n < 65536)%N →
  lex (Uni acc high 3 0) (hex4 n +:+ tail)
  = match finish acc high n with Ok m => lex m tail | Err e => Err e end.
Proof.
  intros Hn. unfold hex4. rewrite !append_cons.
  rewrite lex_cons, scan_hex_digit by lia.
  rewrite lex_cons, scan_hex_digit by lia.
  rewrite lex_cons, scan_hex_digit by lia.
  rewrite lex_cons, scan_hex_digit by lia.
  replace (16 * (16 * (16 * (16 * 0 + n / 4096) + n / 256 mod 16) + n / 16 mod 16)
           + n mod 16)%N with n by lia.
  change (String.append "" tail) with tail.
  by destruct (finish acc high n).
Qed.

Lemma lex_u_escape (acc : string) (n : N) (tail : string) :
  (n < 65536)%N →
  lex (Str acc) (u_escape n +:+ tail)
  = match finish acc None n with Ok m => lex m tail | Err e => Err e end.
Proof.
  intros Hn. unfold u_escape. rewrite !append_cons.
  change (lex (Str acc) (String BS (String "u" ?r))) with (lex (Uni acc None 3 0) r).
  by apply lex_hex4.
Qed.

Lemma lex_low_escape (acc : string) (h n : N) (tail : string) :
  (n < 65536)%N →
  lex (Low1 acc h) (u_escape n +:+ tail)
  = match finish acc (Some h) n with Ok m => lex m tail | Err e => Err e end.
Proof.
  intros Hn. unfold u_escape. rewrite !append_cons.
  change (lex (Low1 acc h) (String BS (String "u" ?r))) with (lex (Uni acc (Some h) 3 0) r).
  by apply lex_hex4.
Qed.

(** The escape of a code point is read back as its bytes. *)
Lemma lex_escape_point (cp : N) (acc tail : string) :
  (cp < 1114112)%N → is_surrogate cp = false →
  lex (Str acc) (escape_point cp +:+ tail) = lex (Str (acc +:+ encode cp)) tail.
Proof.
  intros Hcp Hs. unfold escape_point, is_surrogate in *.
  destruct (N.ltb_spec cp 65536) as [Hlt|Hge].
  - rewrite lex_u_escape by done. unfold finish, is_high, is_low.
    destruct (N.leb_spec 55296 cp), (N.ltb_spec cp 56320),
      (N.leb_spec 56320 cp), (N.ltb_spec cp 57344); simpl in *; try done; lia.
  - rewrite append_assoc, lex_u_escape by lia. unfold finish at 1, is_high.
    destruct (N.leb_spec 55296 (55296 + (cp - 65536) / 1024)),
      (N.ltb_spec (55296 + (cp - 65536) / 1024) 56320); cbn [andb]; try lia.
    rewrite lex_low_escape by lia. unfold finish, is_low.
    destruct (N.leb_spec 56320 (56320 + (cp - 65536) mod 1024)),
      (N.ltb_spec (56320 + (cp - 65536) mod 1024) 57344); cbn [andb]; try lia.
    do 4 f_equal. lia.
Qed.

Lemma is_cont_spec (c : ascii) : is_cont c = true → (128 ≤ code c < 192)%N.
Proof. unfold is_cont. intros [?%N.leb_le ?%N.ltb_lt]%andb_prop. done. Qed.

Lemma encode_point2 (c c1 : ascii) :
  (194 ≤ code c < 224)%N → is_cont c1 = true →
  encode (point2 c c1) = String c (String c1 "").
Proof.
  intros Hc H1%is_cont_spec. unfold encode, point2, tail6.
  destruct (N.ltb_spec ((code c - 192) * 64 + (code c1 - 128)) 128); [lia|].
  destruct (N.ltb_spec ((code c - 192) * 64 + (code c1 - 128)) 2048); [|lia].
  transitivity (String (chr (code c)) (String (chr (code c1)) ""));
    [|by rewrite !chr_code].
  f_equal; [|f_equal]; f_equal; lia.
Qed.

Lemma encode_point3 (c c1 c2 : ascii) :
  (224 ≤ code c < 240)%N → is_cont c1 = true → is_cont c2 = true →
  (2048 ≤ point3 c c1 c2)%N →
  encode (point3 c c1 c2) = String c (String c1 (String c2 "")).
Proof.
  intros Hc H1%is_cont_spec H2%is_cont_spec. unfold encode, point3, tail6. intros Hp.
  destruct (N.ltb_spec ((code c - 224) * 4096 + (code c1 - 128) * 64 + (code c2 - 128)) 128);
    [lia|].
  destruct (N.ltb_spec ((code c - 224) * 4096 + (code c1 - 128) * 64 + (code c2 - 128)) 2048);
    [lia|].
  destruct (N.ltb_spec ((code c - 224) * 4096 + (code c1 - 128) * 64 + (code c2 - 128)) 65536);
    [|lia].
  transitivity (String (chr (code c)) (String (chr (code c1)) (String (chr (code c2)) "")));
    [|by rewrite !chr_code].
  f_equal; [|f_equal; [|f_equal]]; f_equal; lia.
Qed.

Lemma encode_point4 (c c1 c2 c3 : ascii) :
  (240 ≤ code c)%N → is_cont c1 = true → is_cont c2 = true → is_cont c3 = true →
  (65536 ≤ point4 c c1 c2 c3)%N →
  encode (point4 c c1 c2 c3) = String c (String c1 (String c2 (String c3 ""))).
Proof.
  intros Hc H1%is_cont_spec H2%is_cont_spec H3%is_cont_spec.
  pose proof (code_lt c) as Hlt.
  unfold encode, point4, tail6. intros Hp.
  set (cp := ((code c - 240) * 262144 + (code c1 - 128) * 4096 + (code c2 - 128) * 64
              + (code c3 - 128))%N) in *.
  destruct (N.ltb_spec cp 128); [lia|].
  destruct (N.ltb_spec cp 2048); [lia|].
  destruct (N.ltb_spec cp 65536); [lia|].
  transitivity (String (chr (code c)) (String (chr (code c1))
                  (String (chr (code c2)) (String (chr (code c3)) ""))));
    [|by rewrite !chr_code].
  subst cp.
  f_equal; [|f_equal; [|f_equal; [|f_equal]]]; f_equal; lia.
Qed.

(** Inside a string, the scanner reads back the character an escape
    was written for. *)
Lemma lex_escape_char (c : ascii) (acc tail : string) :
  (code c <? 128)%N = true →
  lex (Str acc) (escape_char c +:+ tail) = lex (Str (snoc acc c)) tail.
Proof.
  destruct c as [[] [] [] [] [] [] [] []]; intros H; try reflexivity;
    vm_compute in H; discriminate H.
Qed.

Lemma lex_escape_below (n : nat) (s acc tail : string) :
  (String.length s < n)%nat → utf8 s = true →
  lex (Str acc) (escape s +:+ tail) = lex (Str (acc +:+ s)) tail.
Proof.
  revert s acc. induction n as [|n IH]; intros s acc Hn Hs; [lia|].
  destruct s as [|c r]; [by rewrite append_nil_r|].
  cbn [utf8 escape] in *.
  destruct (code c <? 128)%N eqn:H128.
  { rewrite append_assoc, lex_escape_char, IH by (done || (cbn in Hn; lia)).
    unfold snoc. by rewrite append_assoc. }
  apply N.ltb_ge in H128.
  destruct (N.ltb_spec (code c) 224) as [H224|H224].
  { destruct r as [|c1 r1]; [done|].
    apply andb_prop in Hs as [[Hc H1]%andb_prop Hr].
    apply N.leb_le in Hc.
    pose proof (is_cont_spec _ H1).
    rewrite append_assoc, lex_escape_point; [| unfold point2, tail6; lia
      | unfold is_surrogate, point2, tail6; apply andb_false_intro1, N.leb_gt; lia].
    rewrite encode_point2 by (done || lia).
    rewrite IH by (done || (cbn in Hn; lia)).
    by rewrite append_assoc. }
  destruct (N.ltb_spec (code c) 240) as [H240|H240].
  { destruct r as [|c1 [|c2 r2]]; [done..|].
    apply andb_prop in Hs as [[[[H1 H2]%andb_prop Hp]%andb_prop Hsur]%andb_prop Hr].
    apply N.leb_le in Hp. apply negb_true_iff in Hsur.
    pose proof (is_cont_spec _ H1). pose proof (is_cont_spec _ H2).
    rewrite append_assoc, lex_escape_point; [| unfold point3, tail6; lia | done].
    rewrite encode_point3 by (done || lia).
    rewrite IH by (done || (cbn in Hn; lia)).
    by rewrite append_assoc. }
  destruct r as [|c1 [|c2 [|c3 r3]]]; [done..|].
  apply andb_prop in Hs as
    [[[[[H1 H2]%andb_prop H3]%andb_prop Hp]%andb_prop Hq]%andb_prop Hr].
  apply N.leb_le in Hp. apply N.ltb_lt in Hq.
  rewrite append_assoc, lex_escape_point; [| done
    | unfold is_surrogate; apply andb_false_intro2, N.ltb_ge; lia].
  rewrite encode_point4 by (done || lia).
  rewrite IH by (done || (cbn in Hn; lia)).
  by rewrite append_assoc.
Qed.

Lemma lex_escape (s acc tail : string) :
  utf8 s = true →
  lex (Str acc) (escape s +:+ tail) = lex (Str (acc +:+ s)) tail.
Proof. apply (lex_escape_below (S (String.length s))). lia. Qed.

Lemma lex_dump_str (s tail : string) :
  utf8 s = true →
  lex Top (dump_str s +:+ tail) = cons (TString s) <$> lex Top tail.
Proof.
  intros Hs. unfold dump_str. rewrite append_cons.
  change (lex Top (String DQ ?r)) with (lex (Str "") r).
  rewrite append_assoc, lex_escape, append_cons by done. reflexivity.
Qed.

Lemma lex_dump_value (v : pyval) (tail : string) :
  utf8_value v = true →
  lex Top (dump_value v +:+ tail) = cons (value_token v) <$> lex Top tail.
Proof.
  destruct v as [s|[]]; intros Hv; [by apply lex_dump_str | reflexivity | reflexivity].
Qed.

Lemma lex_dump_item (kv : string * pyval) (tail : string) :
  utf8 kv.1 = true → utf8_value kv.2 = true →
  lex Top (dump_item kv +:+ tail)
  = (fun ts => TString kv.1 :: TColon :: value_token kv.2 :: ts) <$> lex Top tail.
Proof.
  intros Hk Hv. unfold dump_item. rewrite !append_assoc, lex_dump_str by done.
  change (lex Top (": " +:+ ?r)) with (cons TColon <$> lex Top r).
  rewrite lex_dump_value by done. by destruct (lex Top tail).
Qed.

Lemma lex_dump_items (kv : string * pyval) (d : dict) :
  utf8_dict (kv :: d) = true →
  lex Top (dump_items kv d +:+ "}") = Ok (items_tokens kv d).
Proof.
  revert kv. induction d as [|kv' d IH]; intros kv [[Hk Hv]%andb_prop Hd]%andb_prop.
  - cbn [dump_items]. by rewrite append_assoc, lex_dump_item.
  - cbn [dump_items]. rewrite !append_assoc, lex_dump_item by done.
    change (lex Top ("," +:+ newline_indent +:+ ?r)) with (cons TComma <$> lex Top r).
    by rewrite IH.
Qed.

Lemma value_value_token (v : pyval) : value (value_token v) = Ok v.
Proof. by destruct v. Qed.

Lemma members_items_tokens (kv : string * pyval) (d acc : dict) :
  NoDup (acc ++ kv :: d).*1 →
  members (items_tokens kv d) acc = Ok (acc ++ kv :: d).
Proof.
  revert kv acc. induction d as [|kv' d IH]; intros [k v] acc Hnd.
  - cbn [items_tokens members fst snd]. rewrite value_value_token.
    cbn. unfold dict_set. rewrite alist_set_fresh; [done|].
    rewrite fmap_app in Hnd. apply NoDup_app in Hnd as (_ & Hnd & _).
    intros Hin. apply (Hnd _ Hin). constructor.
  - cbn [items_tokens members fst snd]. rewrite value_value_token.
    cbn [mbind result_bind]. unfold dict_set. rewrite alist_set_fresh.
    + rewrite IH; rewrite <- app_assoc; done.
    + rewrite fmap_app in Hnd. apply NoDup_app in Hnd as (_ & Hnd & _).
      intros Hin. apply (Hnd _ Hin). constructor.
Qed.

(** What [dumps] writes for a dictionary of well-formed text, [loads]
    reads back as that dictionary. *)
Lemma loads_dumps (d : dict) :
  NoDup (keys d) → utf8_dict d = true → loads (dumps d) = Ok d.
Proof.
  intros Hnd Hd. destruct d as [|kv d]; [reflexivity|].
  unfold loads, dumps.
  change (lex Top ("{" +:+ newline_indent +:+ ?r)) with (cons TLBrace <$> lex Top r).
  rewrite lex_dump_items by done. cbn [fmap result_fmap mbind result_bind].
  transitivity (members (items_tokens kv d) []); [by destruct d|].
  by apply members_items_tokens.
Qed.

Example dumps_indent :
  dumps [("a", PBool true); ("b", PStr "x")]
  = "{" +:+ String LF "  " +:+ dq +:+ "a" +:+ dq +:+ ": true,"
    +:+ String LF "  " +:+ dq +:+ "b" +:+ dq +:+ ": " +:+ dq +:+ "x" +:+ dq
    +:+ String LF "}".
Proof. reflexivity. Qed.

Example dumps_escapes :
  dumps [("k", PStr ("a" +:+ dq +:+ String LF (String (ascii_of_nat 1) "")))]
  = "{" +:+ String LF "  " +:+ dq +:+ "k" +:+ dq +:+ ": "
    +:+ dq +:+ "a\" +:+ dq +:+ "\n\u0001" +:+ dq +:+ String LF "}".
Proof. reflexivity. Qed.

(** [json.dumps("Jos\u00e9")], the last letter being e with an acute
    accent (bytes 195 and 169), then a character of three bytes (the euro
    sign) and one of four (U+1F600), which goes out as a surrogate pair. *)
Example dumps_above_ascii :
  dump_str (String "J" (String "o" (String "s" (String (chr 195) (String (chr 169) "")))))
  = dq +:+ "Jos\u00e9" +:+ dq
  ∧ dump_str (String (chr 226) (String (chr 130) (String (chr 172) "")))
    = dq +:+ "\u20ac" +:+ dq
  ∧ dump_str (String (chr 240) (String (chr 159) (String (chr 152) (String (chr 128) ""))))
    = dq +:+ "\ud83d\ude00" +:+ dq.
Proof. repeat split; reflexivity. Qed.

Example loads_above_ascii :
  loads ("{" +:+ dq +:+ "a" +:+ dq +:+ ":" +:+ dq +:+ "\u00E9\ud83d\ude00" +:+ dq +:+ "}")
  = Ok [("a", PStr (String (chr 195) (String (chr 169)
                 (String (chr 240) (String (chr 159) (String (chr 152) (String (chr 128) "")))))))].
Proof. reflexivity. Qed.

Example loads_spaces_and_repeats :
  loads ("{ " +:+ dq +:+ "a" +:+ dq +:+ " :true , " +:+ dq +:+ "b" +:+ dq
         +:+ ":false," +:+ dq +:+ "a" +:+ dq +:+ ":false } ")
  = Ok [("a", PBool false); ("b", PBool false)].
Proof. reflexivity. Qed.

Example loads_rejects :
  loads "" = Err JSONDecodeError ∧ loads "{" = Err JSONDecodeError ∧
  loads "[true]" = Err Unmodelled.
Proof. repeat split; reflexivity. Qed.

(** Outside the fragment: [json.load] reads [NaN], [Infinity], a lone
    surrogate and bytes above 127; the model gives no answer there. *)
Example loads_outside_fragment :
  loads ("{" +:+ dq +:+ "a" +:+ dq +:+ ": NaN}") = Err Unmodelled
  ∧ loads ("{" +:+ dq +:+ "a" +:+ dq +:+ ": -Infinity}") = Err Unmodelled
  ∧ loads ("{" +:+ dq +:+ "a" +:+ dq +:+ ": Infinity}") = Err Unmodelled
  ∧ loads ("{" +:+ dq +:+ "a" +:+ dq +:+ ":" +:+ dq +:+ "\ud83d" +:+ dq +:+ "}")
    = Err Unmodelled
  ∧ loads ("{" +:+ dq +:+ "a" +:+ dq +:+ ":" +:+ dq
           +:+ String (chr 195) (String (chr 169) "") +:+ dq +:+ "}")
    = Err Unmodelled.
Proof. repeat split; reflexivity. Qed.
End JsonFacts.

(** ** Handlers *)

Lemma bind_Ok {A B} (m : M A) (k : A → M B) (a a' : app) (x : A) :
  m a = (Ok x, a') → bind m k a = k x a'.
Proof. unfold bind. by intros ->. Qed.

Lemma bind_Err {A B} (m : M A) (k : A → M B) (a a' : app) (e : exn) :
  m a = (Err e, a') → bind m k a = (Err e, a').
Proof. unfold bind. by intros ->. Qed.

Lemma update_Ok (f : node → result node) (a : app) (fs' : node) :
  f (fs a) = Ok fs' → update f a = (Ok tt, App (stack a) fs' (notes a)).
Proof. unfold update. by intros ->. Qed.

Section quiet.
Context {A B : Type}.

Lemma quiet_ret (x : A) : quiet (ret x).
Proof. done. Qed.

Lemma quiet_lift (r : result A) : quiet (lift r).
Proof. done. Qed.

Lemma quiet_ask (f : node → A) : quiet (ask f).
Proof. done. Qed.

Lemma quiet_try (f : node → result A) : quiet (try f).
Proof. done. Qed.

Lemma quiet_update (f : node → result node) : quiet (update f).
Proof. intros a. unfold update. by destruct (f (fs a)). Qed.

Lemma quiet_bind (m : M A) (k : A → M B) :
  quiet m → (∀ x, quiet (k x)) → quiet (bind m k).
Proof.
  intros Hm Hk a. unfold bind. specialize (Hm a).
  destruct (m a) as [[x|e] a1]; simpl in *; [|done].
  destruct (Hk x a1) as [-> ->]. done.
Qed.

Lemma read_only_ret (x : A) : read_only (ret x).
Proof. done. Qed.

Lemma read_only_lift (r : result A) : read_only (lift r).
Proof. done. Qed.

Lemma read_only_ask (f : node → A) : read_only (ask f).
Proof. done. Qed.

Lemma read_only_try (f : node → result A) : read_only (try f).
Proof. done. Qed.

Lemma read_only_bind (m : M A) (k : A → M B) :
  read_only m → (∀ x, read_only (k x)) → read_only (bind m k).
Proof.
  intros Hm Hk a. unfold bind. specialize (Hm a).
  destruct (m a) as [[x|e] a1]; simpl in *; [|done].
  subst. apply Hk.
Qed.
End quiet.

Create HintDb handlers.
#[local] Hint Resolve quiet_ret quiet_lift quiet_ask quiet_try quiet_update
  read_only_ret read_only_lift read_only_ask read_only_try : handlers.

Lemma notifies_notify (message : string) (l : severity) :
  notifies (Notification message l) (notify message l).
Proof. done. Qed.

Lemma notifies_bind {A B} (n : notification) (m : M A) (k : A → M B) :
  quiet m → (∀ x, notifies n (k x)) → notifies n (bind m k).
Proof.
  intros Hm Hk a. unfold bind. specialize (Hm a).
  destruct (m a) as [[x|e] a1]; simpl in *; [|done].
  destruct Hm as [<- <-]. apply Hk.
Qed.

Lemma harmless_read_only {A} (m : M A) : read_only m → harmless m.
Proof. intros Hm a. rewrite Hm. by destruct (m a).1. Qed.

Lemma harmless_bind {A B} (m : M A) (k : A → M B) :
  read_only m → (∀ x, harmless (k x)) → harmless (bind m k).
Proof.
  intros Hm Hk a. unfold bind. specialize (Hm a).
  destruct (m a) as [[x|e] a1]; simpl in *; subst; [apply Hk | done].
Qed.

Lemma harmless_update_recent_label (text : string) :
  harmless (update_recent_label text).
Proof. intros a. unfold update_recent_label. by destruct (stack a) as [|[] ?]. Qed.

Lemma read_only_scan_entry (changes : list string) (change_dir : path) :
  read_only (scan_entry changes change_dir).
Proof.
  unfold scan_entry.
  apply read_only_bind; [auto with handlers|]. intros [];  [|auto with handlers].
  apply read_only_bind; [auto with handlers|]. intros [];  [|auto with handlers].
  repeat (apply read_only_bind; [solve [auto with handlers]|]; intros ?).
  auto with handlers.
Qed.

Lemma read_only_for_each {A B} (xs : list A) (acc : B) (body : B → A → M B) :
  (∀ acc x, read_only (body acc x)) → read_only (for_each xs acc body).
Proof.
  intros Hbody. revert acc. induction xs as [|x xs IH]; intros acc; simpl.
  - auto with handlers.
  - apply read_only_bind; [apply Hbody | apply IH].
Qed.

Lemma harmless_load_recent_changes : harmless _load_recent_changes.
Proof.
  unfold _load_recent_changes.
  apply harmless_bind; [auto with handlers|]. intros [].
  - apply harmless_bind; [auto with handlers|]. intros entries.
    apply harmless_bind.
    + apply read_only_for_each, read_only_scan_entry.
    + intros [|line changes].
      * apply harmless_read_only. auto with handlers.
      * apply harmless_update_recent_label.
  - apply harmless_read_only. auto with handlers.
Qed.

(** Saving, from the point where the base path is known. *)
Lemma action_save_notifies (self : EditorScreen) (name : pyval) (base_path : path) :
  dict_get "name" (change_data self) = Some name →
  Path ("openspec/changes/" +:+ py_str name) = Ok base_path →
  notifies
    (Notification (saved_mark +:+ " Saved to " +:+ path_str base_path) information)
    (action_save self).
Proof.
  intros Hname Hpath a. unfold action_save, dict_item. rewrite Hname.
  rewrite (bind_Ok _ _ a a name) by done.
  rewrite (bind_Ok _ _ a a base_path) by (by unfold lift; rewrite Hpath).
  revert a. change (notifies
    (Notification (saved_mark +:+ " Saved to " +:+ path_str base_path) information)
    (update (mkdir base_path);;
     update (write_text (base_path ++ ["metadata.json"]) (Json.dumps (change_data self)));;
     proposal_text <- lift (editor_text "editor_proposal" self);;
     update (write_text (base_path ++ ["proposal.md"]) proposal_text);;
     tasks_text <- lift (editor_text "editor_tasks" self);;
     update (write_text (base_path ++ ["tasks.md"]) tasks_text);;
     feature_area <- lift (match dict_get "feature_area" (change_data self) with
                           | Some v => Ok v
                           | None => Err (KeyError "feature_area")
                           end);;
     spec_path <- lift (truediv (base_path ++ ["specs"]) feature_area);;
     update (mkdir spec_path);;
     spec_text <- lift (editor_text "editor_spec" self);;
     update (write_text (spec_path ++ ["spec.md"]) spec_text);;
     (match files self !! "design" with
      | Some _ =>
          design_text <- lift (editor_text "editor_design" self);;
          update (write_text (base_path ++ ["design.md"]) design_text)
      | None => ret tt
      end);;
     notify (saved_mark +:+ " Saved to " +:+ path_str base_path) information)).
  repeat (apply notifies_bind; [solve [auto with handlers]|]; intros ?).
  apply notifies_bind; [|intros; apply notifies_notify].
  destruct (files self !! "design"); [|auto with handlers].
  apply quiet_bind; auto with handlers.
Qed.

(** The scan, entry by entry. *)
Lemma scan_entry_catalog (changes : list string) (change_dir : path) (a : app) :
  scan_entry changes change_dir a =
    match catalog_entry (fs a) change_dir with
    | Ok (Some line) => (Ok (changes ++ [line]), a)
    | Ok None => (Ok changes, a)
    | Err e => (Err e, a)
    end.
Proof.
  unfold scan_entry, catalog_entry, bind, ask, try, lift.
  destruct (is_dir change_dir (fs a)); [|done].
  destruct (exists_ (change_dir ++ ["metadata.json"]) (fs a)); [|done].
  cbn [andb]. destruct (read_text _ _) as [text|e]; [|done].
  cbn [mbind result_bind]. destruct (Json.loads text) as [metadata|e]; [|done].
  cbn [mbind result_bind]. by destruct (change_line metadata).
Qed.

Lemma for_each_scan_entry (entries : list path) (acc : list string) (a : app) :
  for_each entries acc scan_entry a =
    match mapM (catalog_entry (fs a)) entries with
    | Ok found => (Ok (acc ++ omap id found), a)
    | Err e => (Err e, a)
    end.
Proof.
  revert acc. induction entries as [|p entries IH]; intros acc.
  - cbn. by rewrite app_nil_r.
  - cbn [for_each mapM]. unfold bind at 1. rewrite scan_entry_catalog.
    destruct (catalog_entry (fs a) p) as [[line|]|e]; cbn [mbind result_bind]; [| |done].
    + rewrite IH. destruct (mapM _ entries); [|done].
      cbn. by rewrite <- app_assoc.
    + rewrite IH. by destruct (mapM _ entries).
Qed.

(** ** Failures of the filesystem *)

(** A handler that makes the steps one after the other, and goes on with
    [k] after the last. *)
Lemma steps_Err {A} (steps before after : list (node → result node))
    (step : node → result node) (k : M A) (a : app) (n : node) (e : exn) :
  steps = before ++ step :: after →
  run_steps before (fs a) = Ok n → step n = Err e →
  foldr (fun step m => update step;; m) k steps a = (Err e, App (stack a) n (notes a)).
Proof.
  intros -> Hrun Hstep. revert a Hrun.
  induction before as [|s0 before IH]; intros a Hrun.
  - cbn in Hrun. injection Hrun as <-. cbn [List.app foldr].
    apply bind_Err. unfold update. rewrite Hstep. by destruct a.
  - cbn [run_steps] in Hrun. destruct (s0 (fs a)) as [n0|] eqn:H0; [|done].
    cbn [mbind result_bind] in Hrun.
    cbn [List.app foldr].
    rewrite (bind_Ok _ _ a (App (stack a) n0 (notes a)) tt) by (by apply update_Ok).
    by rewrite (IH (App (stack a) n0 (notes a))).
Qed.

Lemma steps_Ok {A} (steps : list (node → result node)) (k : M A) (a : app) (n : node) :
  run_steps steps (fs a) = Ok n →
  foldr (fun step m => update step;; m) k steps a = k (App (stack a) n (notes a)).
Proof.
  revert a. induction steps as [|s0 steps IH]; intros a Hrun.
  - cbn in Hrun. injection Hrun as <-. by destruct a.
  - cbn [run_steps] in Hrun. destruct (s0 (fs a)) as [n0|] eqn:H0; [|done].
    cbn [mbind result_bind] in Hrun. cbn [foldr].
    rewrite (bind_Ok _ _ a (App (stack a) n0 (notes a)) tt) by (by apply update_Ok).
    by rewrite (IH (App (stack a) n0 (notes a))).
Qed.

Lemma bind_lift_Ok {A B} (x : A) (k : A → M B) : bind (lift (Ok x)) k = k x.
Proof. reflexivity. Qed.

(** A save whose lookups succeed is its steps on the filesystem, followed
    by the notification. *)
Lemma action_save_steps (self : EditorScreen) (a : app) (name feature_area : pyval)
    (base_path spec_path : path) (proposal tasks spec : string) :
  dict_get "name" (change_data self) = Some name →
  Path ("openspec/changes/" +:+ py_str name) = Ok base_path →
  dict_get "feature_area" (change_data self) = Some feature_area →
  truediv (base_path ++ ["specs"]) feature_area = Ok spec_path →
  editors self !! "editor_proposal" = Some proposal →
  editors self !! "editor_tasks" = Some tasks →
  editors self !! "editor_spec" = Some spec →
  (is_Some (files self !! "design") → is_Some (editors self !! "editor_design")) →
  action_save self a
  = foldr (fun step m => update step;; m)
      (notify (saved_mark +:+ " Saved to " +:+ path_str base_path) information)
      (save_steps (change_data self) base_path spec_path proposal tasks spec
         (match files self !! "design" with
          | Some _ => editors self !! "editor_design"
          | None => None
          end)) a.
Proof.
  intros Hname Hpath Harea Hspec Hp Ht Hs Hd.
  unfold action_save, dict_item, editor_text.
  rewrite Hname, Harea, Hp, Ht, Hs.
  rewrite bind_lift_Ok, Hpath. repeat rewrite bind_lift_Ok. rewrite Hspec, bind_lift_Ok.
  unfold save_steps. cbn [List.app foldr].
  destruct (files self !! "design") as [d|].
  - destruct Hd as [design Hdesign]; [by eexists|]. rewrite Hdesign.
    by rewrite bind_lift_Ok.
  - reflexivity.
Qed.

(** C1, as the code has it. Neither saving nor the catalog scan catches
    anything, and neither notifies of a failure. A save whose lookups
    succeed asks the filesystem for seven things in turn (six without a
    design document): the directory of the change, [metadata.json],
    [proposal.md], [tasks.md], the directory of the spec, [spec.md],
    [design.md]. The error of the first step that fails is the outcome of
    the handler: the steps before it have been made, those after it have
    not, the screens (and with them the metadata and the texts of the
    session) are as they were, and no notification is added. When no
    step fails the handler returns and its one notification reports the
    save. In the scan, the error of listing the changes directory, and the
    error of reading the metadata of an entry once those before it have
    been scanned, are the outcome of the handler; and a scan that raises,
    whatever it raises, leaves the state of the application as it was. *)
Theorem io_failure_escapes :
  (∀ (self : EditorScreen) (a : app) (name feature_area : pyval)
     (base_path spec_path : path) (proposal tasks spec : string),
     dict_get "name" (change_data self) = Some name →
     Path ("openspec/changes/" +:+ py_str name) = Ok base_path →
     dict_get "feature_area" (change_data self) = Some feature_area →
     truediv (base_path ++ ["specs"]) feature_area = Ok spec_path →
     editors self !! "editor_proposal" = Some proposal →
     editors self !! "editor_tasks" = Some tasks →
     editors self !! "editor_spec" = Some spec →
     (is_Some (files self !! "design") → is_Some (editors self !! "editor_design")) →
     let steps :=
       save_steps (change_data self) base_path spec_path proposal tasks spec
         (match files self !! "design" with
          | Some _ => editors self !! "editor_design"
          | None => None
          end) in
     (∀ before step after n e,
        steps = before ++ step :: after →
        run_steps before (fs a) = Ok n → step n = Err e →
        action_save self a = (Err e, App (stack a) n (notes a))) ∧
     (∀ n,
        run_steps steps (fs a) = Ok n →
        action_save self a
        = (Ok tt,
           App (stack a) n
             (notes a ++ [Notification (saved_mark +:+ " Saved to " +:+ path_str base_path)
                            information])))) ∧
  (∀ a e,
     exists_ changes_dir (fs a) = true →
     iterdir changes_dir (fs a) = Err e →
     _load_recent_changes a = (Err e, a)) ∧
  (∀ a entries before change_dir after found e,
     exists_ changes_dir (fs a) = true →
     iterdir changes_dir (fs a) = Ok entries →
     entries = before ++ change_dir :: after →
     mapM (catalog_entry (fs a)) before = Ok found →
     is_dir change_dir (fs a) = true →
     exists_ (change_dir ++ ["metadata.json"]) (fs a) = true →
     read_text (change_dir ++ ["metadata.json"]) (fs a) = Err e →
     _load_recent_changes a = (Err e, a)) ∧
  (∀ a e a', _load_recent_changes a = (Err e, a') → a' = a).
Proof.
  split; [|split; [|split]].
  - intros self a name feature_area base_path spec_path proposal tasks spec
      Hname Hpath Harea Hspec Hp Ht Hs Hd steps.
    split.
    + intros before step after n e Hsteps Hrun Hstep.
      rewrite (action_save_steps self a name feature_area base_path spec_path
                 proposal tasks spec) by assumption.
      by apply (steps_Err _ before after step).
    + intros n Hrun.
      rewrite (action_save_steps self a name feature_area base_path spec_path
                 proposal tasks spec) by assumption.
      by rewrite (steps_Ok _ _ a n).
  - intros a e Hexists Hiter. unfold _load_recent_changes.
    rewrite (bind_Ok _ _ a a true) by (by unfold ask; rewrite Hexists).
    apply bind_Err. unfold try. by rewrite Hiter.
  - intros a entries before change_dir after found e
      Hexists Hiter -> Hbefore Hdir Hmeta Hread.
    unfold _load_recent_changes.
    rewrite (bind_Ok _ _ a a true) by (by unfold ask; rewrite Hexists).
    rewrite (bind_Ok _ _ a a (before ++ change_dir :: after))
      by (by unfold try; rewrite Hiter).
    apply bind_Err. rewrite for_each_scan_entry.
    assert (mapM (catalog_entry (fs a)) (before ++ change_dir :: after) = Err e) as ->;
      [|done].
    clear Hiter Hexists. revert found Hbefore.
    induction before as [|p before IH]; intros found Hbefore.
    * cbn [List.app mapM]. unfold catalog_entry.
      rewrite Hdir, Hmeta, Hread. reflexivity.
    * cbn [List.app mapM] in *.
      destruct (catalog_entry (fs a) p) as [line|]; [|done].
      cbn [mbind result_bind] in *.
      destruct (mapM (catalog_entry (fs a)) before) as [found'|]; [|done].
      by rewrite (IH found').
  - intros a e a' H. pose proof (harmless_load_recent_changes a) as Hh.
    by rewrite H in Hh.
Qed.

(** C1 as stated fails: with a regular file where the [openspec] directory
    should be, saving the sample session raises [NotADirectoryError] to its
    caller and the notification list stays empty; with a regular file at
    [openspec/changes], so does the scan of the main menu. *)
Lemma io_failure_not_notified :
  is_OSError NotADirectoryError = true ∧
  action_save sample_editor (editing_over blocked_fs sample_editor)
  = (Err NotADirectoryError, editing_over blocked_fs sample_editor) ∧
  notes (editing_over blocked_fs sample_editor) = [] ∧
  _load_recent_changes (main_over blocked_changes_fs)
  = (Err NotADirectoryError, main_over blocked_changes_fs).
Proof. vm_compute. auto. Qed.

Lemma sample_editor_mounted :
  mounted (sample_metadata "" sample_now) = Ok sample_editor.
Proof. vm_compute. reflexivity. Qed.

Lemma io_failure_escapes_witness :
  action_save sample_editor (editing_over blocked_fs sample_editor)
  = (Err NotADirectoryError, editing_over blocked_fs sample_editor) ∧
  (∃ n,
     stat ["openspec"; "changes"; "add-user-profile"; "metadata.json"] n
     = Some (IsFile (Json.dumps (sample_metadata "" sample_now))) ∧
     action_save sample_editor (editing_over blocked_proposal_fs sample_editor)
     = (Err IsADirectoryError,
        App [Editor sample_editor; Main {| recent_changes := fresh_label |}] n [])) ∧
  _load_recent_changes (main_over blocked_metadata_fs)
  = (Err IsADirectoryError, main_over blocked_metadata_fs).
Proof.
  destruct io_failure_escapes as (Hsave & _ & Hread & _).
  destruct (Hsave sample_editor (editing_over blocked_fs sample_editor)
              (PStr "add-user-profile") (PStr "auth")
              ["openspec"; "changes"; "add-user-profile"]
              ["openspec"; "changes"; "add-user-profile"; "specs"; "auth"]
              (default "" (editors sample_editor !! "editor_proposal"))
              (default "" (editors sample_editor !! "editor_tasks"))
              (default "" (editors sample_editor !! "editor_spec")))
    as [Hfirst _]; [vm_compute; reflexivity..| |].
  { intros _. vm_compute. eauto. }
  destruct (Hsave sample_editor (editing_over blocked_proposal_fs sample_editor)
              (PStr "add-user-profile") (PStr "auth")
              ["openspec"; "changes"; "add-user-profile"]
              ["openspec"; "changes"; "add-user-profile"; "specs"; "auth"]
              (default "" (editors sample_editor !! "editor_proposal"))
              (default "" (editors sample_editor !! "editor_tasks"))
              (default "" (editors sample_editor !! "editor_spec")))
    as [Hthird _]; [vm_compute; reflexivity..| |].
  { intros _. vm_compute. eauto. }
  split; [|split].
  - apply (Hfirst [] (mkdir ["openspec"; "changes"; "add-user-profile"])
             (tail (save_steps (change_data sample_editor)
                      ["openspec"; "changes"; "add-user-profile"]
                      ["openspec"; "changes"; "add-user-profile"; "specs"; "auth"]
                      (default "" (editors sample_editor !! "editor_proposal"))
                      (default "" (editors sample_editor !! "editor_tasks"))
                      (default "" (editors sample_editor !! "editor_spec"))
                      (match files sample_editor !! "design" with
                       | Some _ => editors sample_editor !! "editor_design"
                       | None => None
                       end)))
             blocked_fs NotADirectoryError); reflexivity.
  - eexists. split; [|eapply (Hthird [_; _] _ _ _ IsADirectoryError);
                       [reflexivity | vm_compute; reflexivity | vm_compute; reflexivity]].
    vm_compute. reflexivity.
  - apply (Hread (main_over blocked_metadata_fs) [["openspec"; "changes"; "wip"]] []
             ["openspec"; "changes"; "wip"] [] [] IsADirectoryError); reflexivity.
Defined.

(** ** The creation modal *)

(** The caller of the modal, resumed with metadata whose name is text:
    the editor of that metadata is mounted on top of the stack. *)
Lemma new_change_resume_metadata (metadata : dict) (name : string) (area : pyval) (a : app) :
  dict_get "name" metadata = Some (PStr name) →
  dict_get "feature_area" metadata = Some area →
  ∃ self,
    mounted metadata = Ok self ∧
    change_data self = metadata ∧
    new_change_resume (Some metadata) a
    = (Ok tt, App (Editor self :: stack a) (fs a) (notes a)).
Proof.
  intros Hname Harea.
  destruct (session_spec _ _ _ Hname Harea)
    as (self & areas & proposal & tasks & spec & design
        & _ & _ & _ & _ & Hinit & Hcompose & Hdata & _ & _ & _).
  exists (set_editors areas self). unfold mounted. rewrite Hinit. cbn [mbind result_bind].
  rewrite Hcompose. split; [done|]. split; [done|].
  unfold new_change_resume. destruct metadata as [|kv metadata]; [done|].
  rewrite (bind_Ok _ _ a a self) by (by unfold lift; rewrite Hinit).
  unfold push_screen. rewrite (bind_Ok _ _ a a areas) by (by unfold lift; rewrite Hcompose).
  done.
Qed.

(** Create with both required fields filled in: the modal is dismissed
    with the metadata of the form and the editor is mounted in its place. *)
Lemma create_change_dismisses (now : string) (self : NewChangeScreen) (a : app) :
  change_name self ≠ "" → feature_area self ≠ "" →
  ∃ editor,
    mounted [("name", PStr (change_name self));
             ("feature_area", PStr (feature_area self));
             ("author", PStr (author self));
             ("include_design", PBool (include_design self));
             ("created_at", PStr now)] = Ok editor ∧
    create_change now self a
    = (Ok tt, App (Editor editor :: tail (stack a)) (fs a) (notes a)).
Proof.
  intros Hname Harea. unfold create_change.
  apply String.eqb_neq in Hname, Harea. rewrite Hname, Harea. cbn [orb].
  edestruct (new_change_resume_metadata
               [("name", PStr (change_name self));
                ("feature_area", PStr (feature_area self));
                ("author", PStr (author self));
                ("include_design", PBool (include_design self));
                ("created_at", PStr now)]
               (change_name self) (PStr (feature_area self))
               (App (tail (stack a)) (fs a) (notes a)))
    as (editor & Hmounted & _ & Hresume); [done|done|].
  exists editor. split; [exact Hmounted|].
  unfold dismiss. rewrite (bind_Ok _ _ a (App (tail (stack a)) (fs a) (notes a)) tt) by done.
  exact Hresume.
Qed.

(** C6. When Create is activated with the name or the feature area empty,
    the handler emits the error notification and does nothing else: the
    modal is not dismissed (the stack is as it was) and no metadata goes to
    any caller. With both filled in, whatever the author field holds (an
    empty text included), the modal is dismissed with the metadata of the
    form and its editor is mounted in its place. *)
Theorem create_change_validation (now : string) (self : NewChangeScreen) (a : app) :
  (change_name self = "" ∨ feature_area self = "" →
   create_change now self a
   = (Ok tt,
      App (stack a) (fs a)
        (notes a ++ [Notification "Change name and feature area are required" error])))
  ∧
  (change_name self ≠ "" → feature_area self ≠ "" →
   ∃ editor,
     mounted [("name", PStr (change_name self));
              ("feature_area", PStr (feature_area self));
              ("author", PStr (author self));
              ("include_design", PBool (include_design self));
              ("created_at", PStr now)] = Ok editor ∧
     create_change now self a
     = (Ok tt, App (Editor editor :: tail (stack a)) (fs a) (notes a))).
Proof.
  split.
  - intros Hblank. unfold create_change.
    assert (String.eqb (change_name self) "" || String.eqb (feature_area self) "" = true)
      as ->; [|done].
    apply orb_true_iff. destruct Hblank as [H|H]; [left|right];
      by apply String.eqb_eq.
  - apply create_change_dismisses.
Qed.

Lemma create_change_validation_witness :
  create_change sample_now
    {| change_name := ""; feature_area := "auth"; author := "someone";
       include_design := true |}
    (App [NewChange NewChangeScreen_init; Main {| recent_changes := fresh_label |}]
       (Dir []) [])
  = (Ok tt,
     App [NewChange NewChangeScreen_init; Main {| recent_changes := fresh_label |}]
       (Dir [])
       [Notification "Change name and feature area are required" error])
  ∧
  ∃ editor,
    mounted (sample_metadata "" sample_now) = Ok editor ∧
    create_change sample_now sample_form
      (App [NewChange sample_form; Main {| recent_changes := fresh_label |}] (Dir []) [])
    = (Ok tt, App [Editor editor; Main {| recent_changes := fresh_label |}] (Dir []) []).
Proof.
  split.
  - apply (proj1 (create_change_validation sample_now
                    {| change_name := ""; feature_area := "auth"; author := "someone";
                       include_design := true |}
                    (App [NewChange NewChangeScreen_init;
                          Main {| recent_changes := fresh_label |}] (Dir []) []))).
    left. reflexivity.
  - apply (proj2 (create_change_validation sample_now sample_form
                    (App [NewChange sample_form; Main {| recent_changes := fresh_label |}]
                       (Dir []) []))); discriminate.
Defined.

(** A name of blanks only is not empty: the form goes through. *)
Example create_change_blanks :
  ∃ editor,
    create_change sample_now
      {| change_name := "   "; feature_area := " "; author := ""; include_design := false |}
      (App [NewChange NewChangeScreen_init] (Dir []) [])
    = (Ok tt, App [Editor editor] (Dir []) []).
Proof.
  destruct (create_change_dismisses sample_now
              {| change_name := "   "; feature_area := " "; author := "";
                 include_design := false |}
              (App [NewChange NewChangeScreen_init] (Dir []) []))
    as (editor & _ & H); [discriminate..|].
  by exists editor.
Qed.

(** C7. Create New Change never gets to await the modal. [new_change]
    is a plain [@on] handler and no worker: [push_screen_wait] puts the
    modal on the stack and raises [NoActiveWorker], and this exception, no
    value of the modal, is the outcome of the handler, from every state of
    the application. The Cancel button then takes the modal off the stack:
    screens, files and notifications are what they were before the button
    was pressed, and no editor screen has been created. *)
Theorem new_change_no_active_worker (a : app) :
  new_change a
  = (Err NoActiveWorker,
     App (NewChange NewChangeScreen_init :: stack a) (fs a) (notes a)) ∧
  cancel (new_change a).2 = (Ok tt, App (stack a) (fs a) (notes a)).
Proof. split; reflexivity. Qed.

Example new_change_from_main :
  new_change (main_over (Dir []))
  = (Err NoActiveWorker,
     App [NewChange NewChangeScreen_init; Main {| recent_changes := fresh_label |}]
       (Dir []) []) ∧
  cancel (new_change (main_over (Dir []))).2 = (Ok tt, main_over (Dir [])).
Proof. split; reflexivity. Qed.

(** ** The catalog *)

(** A directory without a metadata file adds no line and raises nothing,
    wherever it stands among the entries: the scan goes as without it. *)
Lemma scan_skips_bare_directory (before after : list path) (change_dir : path)
    (acc : list string) (a : app) :
  is_dir change_dir (fs a) = true →
  exists_ (change_dir ++ ["metadata.json"]) (fs a) = false →
  scan_entry acc change_dir a = (Ok acc, a) ∧
  for_each (before ++ change_dir :: after) acc scan_entry a
  = for_each (before ++ after) acc scan_entry a.
Proof.
  intros Hdir Hmeta.
  assert (catalog_entry (fs a) change_dir = Ok None) as Hentry.
  { unfold catalog_entry. by rewrite Hdir, Hmeta. }
  split; [by rewrite scan_entry_catalog, Hentry|].
  revert acc. induction before as [|p before IH]; intros acc.
  - cbn [List.app for_each]. unfold bind at 1.
    by rewrite scan_entry_catalog, Hentry.
  - cbn [List.app for_each]. unfold bind. destruct (scan_entry acc p a) as [[acc'|e] a1] eqn:Hp;
      [|done].
    rewrite scan_entry_catalog in Hp.
    assert (a1 = a) as -> by (by destruct (catalog_entry (fs a) p) as [[?|]|?]; injection Hp).
    apply IH.
Qed.


(** C8, on the List Changes button. In a changes directory whose only
    entry is a directory without [metadata.json], the scan of the main
    menu shows nothing for it and raises nothing, and the List Changes
    button reports it as one change. *)
Theorem list_changes_counts_bare_directory :
  _load_recent_changes (main_over bare_fs) = (Ok tt, main_over bare_fs) ∧
  list_changes (main_over bare_fs)
  = (Ok tt,
     App (stack (main_over bare_fs)) bare_fs
       [Notification "Found 1 change(s) in openspec/changes/" information]).
Proof. split; reflexivity. Qed.

(** C9. The label of recent changes holds the first ten lines of the
    catalog, in the order in which the directory yields its entries, joined
    by line feeds; with no line at all the label keeps its text. [found]
    is what each entry gives: a line, or nothing when it is skipped. *)
Theorem recent_changes_first_ten (a : app) (m : MainScreen) (below : list screen)
    (entries : list path) (found : list (option string)) :
  stack a = Main m :: below →
  iterdir changes_dir (fs a) = Ok entries →
  mapM (catalog_entry (fs a)) entries = Ok found →
  let changes : list string := omap id found in
  let shown := take 10 changes in
  _load_recent_changes a
  = (Ok tt,
     match changes with
     | [] => a
     | _ :: _ =>
         App (Main {| recent_changes := String.concat (String LF "") shown |} :: below)
           (fs a) (notes a)
     end) ∧
  (length shown ≤ 10)%nat ∧
  shown `prefix_of` changes.
Proof.
  intros Hstack Hiter Hfound changes shown. split; [|split].
  - unfold _load_recent_changes.
    assert (exists_ changes_dir (fs a) = true) as Hexists.
    { unfold iterdir in Hiter. unfold exists_.
      by destruct (walk changes_dir (fs a)). }
    rewrite (bind_Ok _ _ a a true) by (by unfold ask; rewrite Hexists).
    rewrite (bind_Ok _ _ a a entries) by (by unfold try; rewrite Hiter).
    unfold bind. rewrite for_each_scan_entry, Hfound. cbn [List.app].
    fold changes. destruct changes as [|line changes'] eqn:Hchanges; [done|].
    unfold update_recent_label. rewrite Hstack. done.
  - unfold shown. rewrite length_take. lia.
  - apply prefix_take.
Qed.

Lemma recent_changes_first_ten_witness :
  _load_recent_changes (main_over (catalog_fs eleven))
  = (Ok tt,
     App [Main {| recent_changes :=
                    String.concat (String LF "") (map sample_line (take 10 eleven)) |}]
       (catalog_fs eleven) []).
Proof.
  pose proof (recent_changes_first_ten (main_over (catalog_fs eleven))
                {| recent_changes := fresh_label |} []
                (map (fun name => changes_dir ++ [name]) eleven)
                (map (fun name => Some (sample_line name)) eleven)
                eq_refl eq_refl eq_refl) as H.
  exact (proj1 H).
Defined.

(** ** Saving *)

(** Edits change the texts of the mounted areas and nothing else. *)
Lemma edits_preserve (changes : list (string * string)) (self : EditorScreen) :
  change_data (foldl edit self changes) = change_data self ∧
  files (foldl edit self changes) = files self ∧
  dom (editors (foldl edit self changes)) = dom (editors self).
Proof.
  revert self. induction changes as [|[id text] changes IH]; intros self; [done|].
  cbn [foldl]. destruct (IH (edit self (id, text))) as (-> & -> & ->).
  split; [done|]. split; [done|]. unfold edit. cbn.
  destruct (editors self !! id) eqn:Hid; [|done].
  rewrite dom_insert_L. apply elem_of_dom_2 in Hid.
  apply subseteq_union_1_L, singleton_subseteq_l, Hid.
Qed.

Lemma stat_read_text (p : path) (n : node) (text : string) :
  stat p n = Some (IsFile text) → read_text p n = Ok text.
Proof.
  unfold stat, read_text. destruct (walk p n) as [[t|es]|e]; [|done..].
  by intros [= ->].
Qed.

Lemma prefix_test (l1 l2 : path) : bool_decide (l1 `prefix_of` l2) = true → l1 `prefix_of` l2.
Proof. apply bool_decide_eq_true_1. Qed.
Lemma not_prefix_test (l1 l2 : path) :
  bool_decide (l1 `prefix_of` l2) = false → ¬ l1 `prefix_of` l2.
Proof. apply bool_decide_eq_false_1. Qed.


(** Rewriting [stat] at a given path through the steps of a save, the
    tests on the paths being decided by computation. *)
Ltac path_decide :=
  repeat first
    [ rewrite decide_True by
        first [ reflexivity | apply prefix_test; vm_compute; reflexivity ]
    | rewrite decide_False by
        first [ discriminate | apply not_prefix_test; vm_compute; reflexivity ] ].

(** One step of a handler: the first computation of a [bind] returns. *)
Ltac run_bind tac :=
  lazymatch goal with
  | |- bind ?m ?k ?a = _ => etrans; [eapply bind_Ok; tac|]; cbv beta
  end.

(** Closing a case in which the tests on the paths contradict each other. *)
Ltac path_contradiction :=
  match goal with
  | H : ¬ _ `prefix_of` _ |- _ => apply H, prefix_test; vm_compute; reflexivity
  | H : _ `prefix_of` _ |- _ => revert H; apply not_prefix_test; vm_compute; reflexivity
  | H : ¬ ?q `prefix_of` _, H' : ?q `prefix_of` _ |- _ =>
      apply H; etrans; [exact H'|]; apply prefix_test; vm_compute; reflexivity
  end.

Ltac stat_at :=
  cbn [List.app];
  repeat match goal with
         | H : ∀ q, stat q ?n = _ |- context [stat _ ?n] => rewrite H; path_decide
         end;
  try done.

(** C2. The session created with name [add-user-profile], feature area
    [auth] and the design document, whatever its author, its creation time
    (two texts, well formed as every text is) and the edits made since,
    saved on a filesystem in which no regular file stands where the layout
    needs a directory and no directory where it needs a file. Saving
    returns; afterwards the five files of the
    layout hold the metadata and the texts of the four text areas, the
    directories on the way to them exist, every other path leads to what it
    led to before, and the written [metadata.json] reads back as the
    metadata of the session. *)
Theorem save_round_trip (author now : string) (changes : list (string * string)) (a : app) :
  let metadata := sample_metadata author now in
  let base := ["openspec"; "changes"; "add-user-profile"] in
  utf8 author = true → utf8 now = true →
  (∀ q, q `prefix_of` base ++ ["specs"; "auth"] → no_file q (fs a) = true) →
  (∀ x, x ∈ ["metadata.json"; "proposal.md"; "tasks.md"; "design.md"] →
        no_dir (base ++ [x]) (fs a) = true) →
  no_dir (base ++ ["specs"; "auth"; "spec.md"]) (fs a) = true →
  ∃ (created : EditorScreen) (a' : app) (proposal tasks spec design : string),
    let self := foldl edit created changes in
    mounted metadata = Ok created ∧
    change_data self = metadata ∧
    editors self !! "editor_proposal" = Some proposal ∧
    editors self !! "editor_tasks" = Some tasks ∧
    editors self !! "editor_spec" = Some spec ∧
    editors self !! "editor_design" = Some design ∧
    action_save self a = (Ok tt, a') ∧
    (∀ q, stat q (fs a') =
            if decide (q = base ++ ["metadata.json"])
            then Some (IsFile (Json.dumps metadata))
            else if decide (q = base ++ ["proposal.md"]) then Some (IsFile proposal)
            else if decide (q = base ++ ["tasks.md"]) then Some (IsFile tasks)
            else if decide (q = base ++ ["specs"; "auth"; "spec.md"])
            then Some (IsFile spec)
            else if decide (q = base ++ ["design.md"]) then Some (IsFile design)
            else if decide (q `prefix_of` base ++ ["specs"; "auth"]) then Some IsDir
            else stat q (fs a)) ∧
    ∃ text, read_text (base ++ ["metadata.json"]) (fs a') = Ok text ∧
            Json.loads text = Ok metadata.
Proof.
  intros metadata base Hauthor Hnow Hdirs Hfiles Hspec.
  assert (utf8_dict metadata = true) as Hutf8.
  { unfold metadata, sample_metadata, utf8_dict. cbn [forallb fst snd utf8_value].
    rewrite Hauthor, Hnow. reflexivity. }
  clear Hauthor Hnow.
  destruct (session_spec metadata "add-user-profile" (PStr "auth") eq_refl eq_refl)
    as (self0 & areas & p0 & t0 & s0 & d0
        & _ & _ & _ & _ & Hinit & Hcompose & Hdata & _ & Hfiles0 & Hareas).
  cbn in Hfiles0, Hareas.
  set (created := set_editors areas self0).
  destruct (edits_preserve changes created) as (Hcd & Hf & Hdom).
  set (self := foldl edit created changes) in *.
  assert (∀ id, id ∈ dom areas → is_Some (editors self !! id)) as Hareas_dom.
  { intros id Hid. apply elem_of_dom. by rewrite Hdom. }
  destruct (Hareas_dom "editor_proposal") as [proposal Hp].
  { rewrite Hareas, !dom_insert_L. set_solver. }
  destruct (Hareas_dom "editor_tasks") as [tasks Ht].
  { rewrite Hareas, !dom_insert_L. set_solver. }
  destruct (Hareas_dom "editor_spec") as [spec Hs].
  { rewrite Hareas, !dom_insert_L. set_solver. }
  destruct (Hareas_dom "editor_design") as [design Hd].
  { rewrite Hareas, !dom_insert_L. set_solver. }
  assert (mounted metadata = Ok created) as Hmounted.
  { unfold mounted. rewrite Hinit. cbn [mbind result_bind]. by rewrite Hcompose. }
  assert (change_data self = metadata) as Hmeta by (by rewrite Hcd).
  assert (files self !! "design" = Some d0) as Hdesign.
  { rewrite Hf. unfold created. cbn [files set_editors]. rewrite Hfiles0.
    apply lookup_insert_eq. }
  clear Hinit Hcompose Hdata Hfiles0 Hareas Hareas_dom Hcd Hf Hdom.
  revert Hmounted. unfold base in *. clear base. cbn [List.app] in *.
  destruct (mkdir_spec ["openspec"; "changes"; "add-user-profile"] (fs a))
    as (fs1 & Hmk1 & H1).
  { intros q Hq. apply Hdirs. etrans; [exact Hq|]. by apply prefix_test. }
  destruct (write_text_spec ["openspec"; "changes"; "add-user-profile"]
              "metadata.json" (Json.dumps metadata) fs1) as (fs2 & Hw2 & H2).
  { stat_at. }
  { unfold no_dir. stat_at. apply Hfiles. set_solver. }
  destruct (write_text_spec ["openspec"; "changes"; "add-user-profile"]
              "proposal.md" proposal fs2) as (fs3 & Hw3 & H3).
  { stat_at. }
  { unfold no_dir. stat_at. apply Hfiles. set_solver. }
  destruct (write_text_spec ["openspec"; "changes"; "add-user-profile"]
              "tasks.md" tasks fs3) as (fs4 & Hw4 & H4).
  { stat_at. }
  { unfold no_dir. stat_at. apply Hfiles. set_solver. }
  destruct (mkdir_spec ["openspec"; "changes"; "add-user-profile"; "specs"; "auth"] fs4)
    as (fs5 & Hmk5 & H5).
  { intros q Hq. unfold no_file. rewrite H4, H3, H2, H1.
    repeat case_decide; subst; try done.
    - exfalso. revert Hq. by apply not_prefix_test.
    - exfalso. revert Hq. by apply not_prefix_test.
    - exfalso. revert Hq. by apply not_prefix_test.
    - by apply Hdirs. }
  destruct (write_text_spec ["openspec"; "changes"; "add-user-profile"; "specs"; "auth"]
              "spec.md" spec fs5) as (fs6 & Hw6 & H6).
  { stat_at. }
  { unfold no_dir. stat_at. }
  destruct (write_text_spec ["openspec"; "changes"; "add-user-profile"]
              "design.md" design fs6) as (fs7 & Hw7 & H7).
  { stat_at. }
  { unfold no_dir. stat_at. apply Hfiles. set_solver. }
  intros Hmounted.
  exists created, (App (stack a) fs7
                     (notes a ++ [Notification
                        (saved_mark +:+ " Saved to openspec/changes/add-user-profile")
                        information])),
    proposal, tasks, spec, design.
  cbv zeta. fold self.
  split; [exact Hmounted|]. clear Hmounted.
  split; [exact Hmeta|].
  split; [exact Hp|]. split; [exact Ht|]. split; [exact Hs|]. split; [exact Hd|].
  split; [|split].
  - unfold action_save, editor_text. rewrite Hmeta, Hp, Ht, Hs, Hd, Hdesign.
    run_bind ltac:(reflexivity). run_bind ltac:(reflexivity).
    run_bind ltac:(apply update_Ok; exact Hmk1).
    run_bind ltac:(apply update_Ok; exact Hw2).
    run_bind ltac:(reflexivity).
    run_bind ltac:(apply update_Ok; exact Hw3).
    run_bind ltac:(reflexivity).
    run_bind ltac:(apply update_Ok; exact Hw4).
    run_bind ltac:(reflexivity). run_bind ltac:(reflexivity).
    run_bind ltac:(apply update_Ok; exact Hmk5).
    run_bind ltac:(reflexivity).
    run_bind ltac:(apply update_Ok; exact Hw6).
    run_bind ltac:(run_bind ltac:(reflexivity); apply update_Ok; exact Hw7).
    reflexivity.
  - intros q. cbn [List.app] in *. rewrite H7, H6, H5, H4, H3, H2, H1.
    repeat case_decide; subst; try done.
    all: exfalso; path_contradiction.
  - exists (Json.dumps metadata). split.
    + apply stat_read_text. stat_at.
    + apply JsonFacts.loads_dumps; [|exact Hutf8]. unfold keys. cbn.
      apply (bool_decide_unpack _). vm_compute. exact I.
Qed.

Lemma save_round_trip_witness :
  ∃ a' : app,
    action_save (foldl edit sample_editor [("editor_tasks", "- [x] done")])
      (editing_over (Dir []) sample_editor)
    = (Ok tt, a') ∧
    stat ["openspec"; "changes"; "add-user-profile"; "tasks.md"] (fs a')
    = Some (IsFile "- [x] done") ∧
    ∃ text,
      read_text ["openspec"; "changes"; "add-user-profile"; "metadata.json"] (fs a')
      = Ok text ∧
      Json.loads text = Ok (sample_metadata "" sample_now).
Proof.
  destruct (save_round_trip "" sample_now [("editor_tasks", "- [x] done")]
              (editing_over (Dir []) sample_editor))
    as (created & a' & proposal & tasks & spec & design
        & Hmounted & _ & _ & Htasks & _ & _ & Hsave & Hstat & Hread).
  - reflexivity.
  - reflexivity.
  - intros q _. unfold no_file. cbn [fs editing_over].
    rewrite stat_above_empty. by case_decide.
  - intros x _. reflexivity.
  - reflexivity.
  - rewrite sample_editor_mounted in Hmounted. injection Hmounted as <-.
    exists a'. split; [exact Hsave|]. split; [|exact Hread].
    rewrite Hstat. cbn [List.app]. path_decide.
    assert (tasks = "- [x] done") as ->; [|done].
    vm_compute in Htasks. by injection Htasks.
Defined.


(** * Further properties *)

(** ** The filesystem, from the outcome of an operation *)





(** ** What a save leaves alone *)





Section confined.
Context {A B : Type} (base : path).






End confined.

Lemma joinpath_cases (p : path) (s : string) :
  joinpath p s =
    if match s with String c _ => Ascii.eqb c "/" | "" => false end
    then Err Unmodelled
    else Path s ≫= (fun q => Ok (p ++ q)).
Proof.
  destruct s as [|c s]; [done|].
  destruct c as [[] [] [] [] [] [] [] []]; reflexivity.
Qed.


Lemma joinpath_app (p : path) (s : string) (q : path) :
  joinpath [] s = Ok q → joinpath p s = Ok (p ++ q).
Proof.
  rewrite !joinpath_cases. destruct (match s with String _ _ => _ | "" => _ end); [done|].
  destruct (Path s) as [q'|e]; [|done]. by intros [= <-].
Qed.




(** ** The buttons of the main menu and the preview *)







